(** * Newtonbotics Lab Store API: a shallow embedding of [main.py] and [schemas.py]

    The endpoints of [main.py] are embedded as programs over the three calls
    they make to the database layer ([get_documents], [create_document],
    [db.list_collection_names]).  Documents, filters and response bodies are
    Python dictionaries with string keys; they are finite maps here.  A Python
    string is a sequence of characters of type [ascii]; the status marks of
    [GET /test], which lie outside that alphabet, stand in their UTF-8 form. *)

From Stdlib Require Import QArith Ascii String.
From stdpp Require Import gmap strings list fin_maps pretty.

Local Open Scope string_scope.
Local Open Scope Z_scope.

(** ** Python / BSON values *)

(** A Python [float] is modelled by the rational it denotes (NaN and the
    infinities are outside the model); a BSON [ObjectId] by its 96-bit
    number. *)
#[warnings="-register-all"]
Inductive value : Type :=
| VNone
| VBool (b : bool)
| VInt (z : Z)
| VFloat (q : Q)
| VStr (s : string)
| VOid (n : N)
| VList (l : list value)
| VDict (d : gmap string value).

Abbreviation dict := (gmap string value).

(** Truthiness of an [Optional[str]]: [None] and the empty string are falsy. *)
Definition truthy (o : option string) : bool :=
  match o with
  | Some s => negb (String.eqb s "")
  | None => false
  end.

(** [o is not None] *)
Definition is_not_None {A : Type} (o : option A) : bool :=
  match o with
  | Some _ => true
  | None => false
  end.

(** ** Exceptions *)

(** [RequestValidationError] is what the framework raises, before the handler
    runs, when the request body does not fit the handler's model; [loc] is the
    path of the offending field. *)
Inductive exn : Type :=
| Exception (msg : string)
| HTTPException (status_code : Z) (detail : string)
| RequestValidationError (loc : list string) (msg : string).

(** [str(e)]: the message of a plain exception; Starlette prints an
    [HTTPException] as its status code, a colon and the detail. *)
Definition str_exn (e : exn) : string :=
  match e with
  | Exception msg => msg
  | HTTPException status_code detail => pretty status_code ++ ": " ++ detail
  | RequestValidationError _ msg => msg
  end.

(** The status the client sees when a handler raises. *)
Definition http_status (e : exn) : Z :=
  match e with
  | Exception _ => 500
  | HTTPException status_code _ => status_code
  | RequestValidationError _ _ => 422
  end.

(** ** Programs over the database layer *)

Inductive outcome (A : Type) : Type :=
| Returned (a : A)
| Raised (e : exn).
Arguments Returned {A} a.
Arguments Raised {A} e.

(** A handler either returns, raises, or calls the database layer and goes on
    with what the call returned or raised. *)
Inductive prog (R : Type) : Type :=
| Ret (r : R)
| Raise (e : exn)
| GetDocuments (collection_name : string) (filter : dict) (limit : Z)
    (k : outcome (list dict) -> prog R)
| CreateDocument (collection_name : string) (data : dict)
    (k : outcome string -> prog R)
| ListCollectionNames (k : outcome (list string) -> prog R).
Arguments Ret {R} r.
Arguments Raise {R} e.
Arguments GetDocuments {R} collection_name filter limit k.
Arguments CreateDocument {R} collection_name data k.
Arguments ListCollectionNames {R} k.

Definition resume {A : Type} (o : outcome A) : prog A :=
  match o with
  | Returned a => Ret a
  | Raised e => Raise e
  end.

Definition get_documents (collection_name : string) (filter : dict) (limit : Z)
  : prog (list dict) :=
  GetDocuments collection_name filter limit resume.

Definition create_document (collection_name : string) (data : dict) : prog string :=
  CreateDocument collection_name data resume.

Definition list_collection_names : prog (list string) :=
  ListCollectionNames resume.

Fixpoint bind {A B : Type} (p : prog A) (f : A -> prog B) : prog B :=
  match p with
  | Ret a => f a
  | Raise e => Raise e
  | GetDocuments c fl l k => GetDocuments c fl l (fun o => bind (k o) f)
  | CreateDocument c d k => CreateDocument c d (fun o => bind (k o) f)
  | ListCollectionNames k => ListCollectionNames (fun o => bind (k o) f)
  end.

(** [try: p except Exception as e: h e] *)
Fixpoint try_except {A : Type} (p : prog A) (h : exn -> prog A) : prog A :=
  match p with
  | Ret a => Ret a
  | Raise e => h e
  | GetDocuments c fl l k => GetDocuments c fl l (fun o => try_except (k o) h)
  | CreateDocument c d k => CreateDocument c d (fun o => try_except (k o) h)
  | ListCollectionNames k => ListCollectionNames (fun o => try_except (k o) h)
  end.

Notation "x <- p ;; q" := (bind p (fun x => q))
  (at level 100, p at next level, right associativity).
Notation "'try' p 'except' e => h" := (try_except p (fun e => h))
  (at level 100, p at level 200, e name, h at level 200).

(** Every run of [p] makes at most [n] calls to the database layer. *)
Fixpoint calls_le {R : Type} (n : nat) (p : prog R) : Prop :=
  match p with
  | Ret _ | Raise _ => True
  | GetDocuments _ _ _ k =>
      match n with O => False | S m => forall o, calls_le m (k o) end
  | CreateDocument _ _ k =>
      match n with O => False | S m => forall o, calls_le m (k o) end
  | ListCollectionNames k =>
      match n with O => False | S m => forall o, calls_le m (k o) end
  end.

(** Every run of [p] returns normally, with a result satisfying [P]. *)
Fixpoint always_returns {R : Type} (P : R -> Prop) (p : prog R) : Prop :=
  match p with
  | Ret r => P r
  | Raise _ => False
  | GetDocuments _ _ _ k => forall o, always_returns P (k o)
  | CreateDocument _ _ k => forall o, always_returns P (k o)
  | ListCollectionNames k => forall o, always_returns P (k o)
  end.

(** ** [GET /] *)

Definition read_root : prog dict :=
  Ret {[ "message" := VStr "Newtonbotics Lab Store Backend Running" ]}.

(** ** [GET /api/products]: the filter *)

(** The value of [price_filter] once both bounds have been looked at. *)
Definition price_filter (min_price max_price : option Q) : dict :=
  let price_filter : dict := ∅ in
  let price_filter :=
    match min_price with
    | Some lo => <["$gte" := VFloat lo]> price_filter
    | None => price_filter
    end in
  match max_price with
  | Some hi => <["$lte" := VFloat hi]> price_filter
  | None => price_filter
  end.

(** [{"$regex": q, "$options": "i"}] *)
Definition regex_condition (q : string) : dict :=
  <["$regex" := VStr q]> {[ "$options" := VStr "i" ]}.

(** The two alternatives stored under [$or]: the title, or one of the tags. *)
Definition text_clauses (q : string) : value :=
  VList
    [ VDict {[ "title" := VDict (regex_condition q) ]};
      VDict {[ "tags" := VDict {[ "$elemMatch" := VDict (regex_condition q) ]} ]} ].

(** The value of [filter_dict] when [list_products] reaches its [try]. *)
Definition filter_dict (q category : option string) (min_price max_price : option Q)
  : dict :=
  let filter_dict : dict := ∅ in
  let filter_dict :=
    match category with
    | Some c => if truthy category then <["category" := VStr c]> filter_dict
                else filter_dict
    | None => filter_dict
    end in
  let filter_dict :=
    if is_not_None min_price || is_not_None max_price then
      <["price" := VDict (price_filter min_price max_price)]> filter_dict
    else filter_dict in
  match q with
  | Some text =>
      if truthy q then
        <["$or" := text_clauses text]> filter_dict
      else filter_dict
  | None => filter_dict
  end.

(** ** [GET /api/products]: the handler *)

(** The loop body of [list_products]: [if "_id" in p: p["id"] = str(p.pop("_id"))].
    [py_str] is Python's [str] on stored values. *)
Definition expose_id (py_str : value -> string) (p : dict) : dict :=
  match p !! "_id" with
  | Some oid => <["id" := VStr (py_str oid)]> (delete "_id" p)
  | None => p
  end.

Definition list_products (py_str : value -> string)
    (q category : option string) (min_price max_price : option Q) (limit : Z)
  : prog dict :=
  let filter_dict := filter_dict q category min_price max_price in
  try
    (products <- get_documents "product" filter_dict limit ;;
     let products := expose_id py_str <$> products in
     Ret {[ "items" := VList (VDict <$> products) ]})
  except e => Raise (HTTPException 500 (str_exn e)).

(** ** The document store: how a filter selects documents *)

(** Strings are compared without regard to the case of letters.  Among the
    256 characters of [ascii] the letters with two cases are [A]-[Z] (codes
    65 to 90) and the accented capitals of codes 192 to 222, but for the
    multiplication sign 215; each has its small letter 32 codes further.  The
    other case of every other character lies outside the alphabet. *)
Definition lower (c : ascii) : ascii :=
  let n := nat_of_ascii c in
  if (((65 <=? n) && (n <=? 90)) ||
      ((192 <=? n) && (n <=? 214)) ||
      ((216 <=? n) && (n <=? 222)))%nat
  then ascii_of_nat (n + 32) else c.

Fixpoint lower_str (s : string) : string :=
  match s with
  | EmptyString => EmptyString
  | String c s' => String (lower c) (lower_str s')
  end.

(** The spec's words: [hay] case-insensitively contains [needle] as a
    substring. *)
Definition ci_contains (needle hay : string) : Prop :=
  exists pre post, lower_str hay = pre ++ lower_str needle ++ post.

(** The store's [$regex] operator, which the filter of [list_products] names:
    its argument is a regular expression, searched for anywhere in the
    subject.  The operator belongs to the database, not to the repository;
    the fragment of patterns made of literal characters and the wildcard [.]
    (any character but a line feed) is modelled, and a pattern using any
    other operator is outside the model ([None]). *)
Inductive atom : Type :=
| Lit (c : ascii)
| AnyChar.

Definition is_meta (c : ascii) : bool :=
  existsb (Ascii.eqb c) (list_ascii_of_string "\^$.|?*+()[]{}").

Fixpoint parse_regex (pattern : string) : option (list atom) :=
  match pattern with
  | EmptyString => Some []
  | String c rest =>
      if Ascii.eqb c "." then cons AnyChar <$> parse_regex rest
      else if is_meta c then None
      else cons (Lit c) <$> parse_regex rest
  end.

Definition atom_matches (ignore_case : bool) (a : atom) (c : ascii) : bool :=
  match a with
  | Lit x => if ignore_case then Ascii.eqb (lower x) (lower c) else Ascii.eqb x c
  | AnyChar => negb (Ascii.eqb c "010")
  end.

Fixpoint match_here (ignore_case : bool) (atoms : list atom) (s : string) : bool :=
  match atoms, s with
  | [], _ => true
  | a :: atoms', String c s' =>
      atom_matches ignore_case a c && match_here ignore_case atoms' s'
  | _ :: _, EmptyString => false
  end.

Fixpoint search (ignore_case : bool) (atoms : list atom) (s : string) : bool :=
  match_here ignore_case atoms s ||
  match s with
  | EmptyString => false
  | String _ s' => search ignore_case atoms s'
  end.

Definition regex_search (pattern : string) (options : option value) (subject : string)
  : option bool :=
  match parse_regex pattern, options with
  | Some atoms, None => Some (search false atoms subject)
  | Some atoms, Some (VStr o) =>
      if String.eqb o "i" then Some (search true atoms subject)
      else if String.eqb o "" then Some (search false atoms subject)
      else None
  | _, _ => None
  end.

Definition andb_opt (a b : option bool) : option bool :=
  match a, b with
  | Some x, Some y => Some (x && y)
  | _, _ => None
  end.

Definition orb_opt (a b : option bool) : option bool :=
  match a, b with
  | Some x, Some y => Some (x || y)
  | _, _ => None
  end.

(** All bindings of a dictionary satisfy [g]; [None] as soon as one of them
    is outside the model. *)
Definition all_bindings (g : string -> value -> option bool) (m : dict) : option bool :=
  map_fold (fun k v acc => andb_opt (g k v) acc) (Some true) m.

Definition any_element {A : Type} (g : A -> option bool) (l : list A) : option bool :=
  foldr (fun x acc => orb_opt (g x) acc) (Some false) l.

Definition number (v : value) : option Q :=
  match v with
  | VInt z => Some (inject_Z z)
  | VFloat q => Some q
  | _ => None
  end.

(** Modelled from the spec: the comparison and text operators the store
    applies to one field value ([price >= min_price], [price <= max_price],
    case-insensitive containment).  [ops] is the operator dictionary the
    operator occurs in, where [$regex] finds its [$options]. *)
Definition match_operator (ops : dict) (fv : value) (op : string) (arg : value)
  : option bool :=
  if String.eqb op "$gte" then
    match number arg with
    | Some lo => Some (match number fv with Some x => Qle_bool lo x | None => false end)
    | None => None
    end
  else if String.eqb op "$lte" then
    match number arg with
    | Some hi => Some (match number fv with Some x => Qle_bool x hi | None => false end)
    | None => None
    end
  else if String.eqb op "$regex" then
    match arg with
    | VStr pattern =>
        match fv with
        | VStr subject => regex_search pattern (ops !! "$options") subject
        | _ => regex_search pattern (ops !! "$options") "" ≫= fun _ => Some false
        end
    | _ => None
    end
  else if String.eqb op "$options" then
    if bool_decide (is_Some (ops !! "$regex")) then Some true else None
  else None.

(** Modelled from the spec: [$elemMatch] asks for one element of a list field
    that satisfies the inner operators; every other operator is applied to
    the field itself. *)
Definition match_operator_at (ops : dict) (fv : value) (op : string) (arg : value)
  : option bool :=
  if String.eqb op "$elemMatch" then
    match arg with
    | VDict inner =>
        match fv with
        | VList elems =>
            any_element (fun el => all_bindings (match_operator inner el) inner) elems
        | _ => all_bindings (match_operator inner VNone) inner ≫= fun _ => Some false
        end
    | _ => None
    end
  else match_operator ops fv op arg.

(** Modelled from the spec: an operator dictionary applied to a field: all its
    operators must hold. *)
Definition match_operators (ops : dict) (fv : value) : option bool :=
  all_bindings (match_operator_at ops fv) ops.

(** Modelled from the spec: one condition of a filter on a named field: a
    string asks for exact equality, a dictionary holds operators.  A missing
    field is compared as [None]. *)
Definition match_field (doc : dict) (field : string) (cond : value) : option bool :=
  match cond with
  | VStr s =>
      Some (match doc !! field with
            | Some (VStr s') => String.eqb s s'
            | _ => false
            end)
  | VDict ops => match_operators ops (default VNone (doc !! field))
  | _ => None
  end.

(** One alternative of an [$or]. *)
Definition match_clause (doc : dict) (clause : value) : option bool :=
  match clause with
  | VDict c => all_bindings (match_field doc) c
  | _ => None
  end.

(** Modelled from the spec: one entry of a filter: [$or] holds a list of
    alternatives, one of which must hold; any other key names a field. *)
Definition match_condition (doc : dict) (key : string) (cond : value) : option bool :=
  if String.eqb key "$or" then
    match cond with
    | VList clauses => any_element (match_clause doc) clauses
    | _ => None
    end
  else match_field doc key cond.

(** Modelled from the spec: a filter selects a document when all its
    conditions hold.  The empty filter selects every document. *)
Definition matches (filter doc : dict) : option bool :=
  all_bindings (match_condition doc) filter.

(** ** [GET /api/products/sample-seed] *)

Definition servo_mount : dict :=
  <["title" := VStr "Precision Servo Mount"]>
  (<["slug" := VStr "precision-servo-mount"]>
  (<["description" :=
       VStr "CNC-accurate 3D-printed mount for standard servos with M3 hardware."]>
  (<["category" := VStr "3d-printed"]>
  (<["price" := VFloat (999 # 100)]>
  (<["in_stock" := VBool true]>
  (<["images" := VList [VStr "/products/servo-mount-1.jpg"]]>
  (<["tags" := VList [VStr "mount"; VStr "3d print"; VStr "servo"]]>
  (<["specs" := VDict
       (<["dimensions_mm" := VStr "40x20x18"]>
       (<["materials" := VList [VStr "PLA+"]]>
       (<["tolerance_mm" := VFloat (2 # 10)]>
       (<["mounting_pattern" := VStr "M3 16mm"]> ∅))))]> ∅)))))))).

Definition control_panel_plate : dict :=
  <["title" := VStr "Laser-Engraved Control Panel Plate"]>
  (<["slug" := VStr "control-panel-plate"]>
  (<["description" :=
       VStr "Acrylic front panel with crisp vector engravings and pre-drilled holes."]>
  (<["category" := VStr "laser-engraved"]>
  (<["price" := VFloat (24 # 1)]>
  (<["in_stock" := VBool true]>
  (<["images" := VList [VStr "/products/panel-plate-1.jpg"]]>
  (<["tags" := VList [VStr "panel"; VStr "acrylic"; VStr "engraved"]]>
  (<["specs" := VDict
       (<["dimensions_mm" := VStr "120x60x3"]>
       (<["materials" := VList [VStr "Acrylic"]]> ∅))]> ∅)))))))).

Definition power_board : dict :=
  <["title" := VStr "Robotics Power Distribution Board"]>
  (<["slug" := VStr "pdb-12v"]>
  (<["description" :=
       VStr "12V PDB with fused outputs, screw terminals, and status LEDs."]>
  (<["category" := VStr "electronics"]>
  (<["price" := VFloat (395 # 10)]>
  (<["in_stock" := VBool true]>
  (<["images" := VList [VStr "/products/pdb-12v-1.jpg"]]>
  (<["tags" := VList [VStr "pdb"; VStr "12v"; VStr "electronics"]]>
  (<["specs" := VDict
       (<["voltage_range_v" := VStr "9-14V"]>
       (<["current_max_a" := VFloat (10 # 1)]> ∅))]> ∅)))))))).

Definition samples : list dict := [servo_mount; control_panel_plate; power_board].

(** [for s in samples: create_document("product", s); inserted += 1] *)
Fixpoint insert_samples (samples : list dict) (inserted : Z) : prog Z :=
  match samples with
  | [] => Ret inserted
  | s :: rest =>
      _ <- create_document "product" s ;;
      insert_samples rest (inserted + 1)
  end.

Definition seed_sample_products : prog dict :=
  try
    (existing <- get_documents "product" ∅ 1 ;;
     match existing with
     | _ :: _ =>
         Ret (<["inserted" := VInt 0]> {[ "message" := VStr "Products already exist" ]})
     | [] =>
         inserted <- insert_samples samples 0 ;;
         Ret {[ "inserted" := VInt inserted ]}
     end)
  except e => Raise (HTTPException 500 (str_exn e)).

(** ** [POST /api/orders]: the request models of [main.py] *)

Record OrderItem : Type := {
  product_id : string;
  title : string;
  price : Q;
  quantity : Z
}.

Record CustomerInfo : Type := {
  full_name : string;
  email : string;
  phone : string;
  address_line1 : string;
  address_line2 : option string;
  city : string;
  state : string;
  postal_code : string;
  country : string
}.

Record OrderPayload : Type := {
  items : list OrderItem;
  customer : CustomerInfo;
  notes : option string;
  subtotal : Q;
  shipping : Q;
  total : Q
}.

Definition dump_optional_str (o : option string) : value :=
  match o with
  | Some s => VStr s
  | None => VNone
  end.

Definition model_dump_OrderItem (it : OrderItem) : dict :=
  <["product_id" := VStr (product_id it)]>
  (<["title" := VStr (title it)]>
  (<["price" := VFloat (price it)]>
  (<["quantity" := VInt (quantity it)]> ∅))).

Definition model_dump_CustomerInfo (c : CustomerInfo) : dict :=
  <["full_name" := VStr (full_name c)]>
  (<["email" := VStr (email c)]>
  (<["phone" := VStr (phone c)]>
  (<["address_line1" := VStr (address_line1 c)]>
  (<["address_line2" := dump_optional_str (address_line2 c)]>
  (<["city" := VStr (city c)]>
  (<["state" := VStr (state c)]>
  (<["postal_code" := VStr (postal_code c)]>
  (<["country" := VStr (country c)]> ∅)))))))).

(** [payload.model_dump()]: exactly the declared fields, nested models as
    dictionaries. *)
Definition model_dump (payload : OrderPayload) : dict :=
  <["items" := VList ((fun it => VDict (model_dump_OrderItem it)) <$> items payload)]>
  (<["customer" := VDict (model_dump_CustomerInfo (customer payload))]>
  (<["notes" := dump_optional_str (notes payload)]>
  (<["subtotal" := VFloat (subtotal payload)]>
  (<["shipping" := VFloat (shipping payload)]>
  (<["total" := VFloat (total payload)]> ∅))))).

(** ** [POST /api/orders]: the handler *)

Definition create_order (payload : OrderPayload) : prog dict :=
  match items payload with
  | [] => Raise (HTTPException 400 "Order must contain at least one item")
  | _ :: _ =>
      let order_doc := model_dump payload in
      let order_doc := <["payment_method" := VStr "cod"]> order_doc in
      let order_doc := <["status" := VStr "received"]> order_doc in
      try
        (order_id <- create_document "order" order_doc ;;
         Ret (<["order_id" := VStr order_id]> {[ "status" := VStr "received" ]}))
      except e => Raise (HTTPException 500 (str_exn e))
  end.

(** ** Request validation *)

(** Modelled from the spec: the structural validation the framework runs on a
    request body against a model class (field presence and type
    conformance).  It belongs to FastAPI and pydantic, not to the repository;
    the model classes it is driven by are those of the source.  A JSON value
    is accepted for a field when it has the field's JSON type; the first
    offending field is reported. *)
Definition validation (A : Type) : Type := (A + list string * string)%type.

Definition vbind {A B : Type} (v : validation A) (f : A -> validation B) : validation B :=
  match v with
  | inl a => f a
  | inr err => inr err
  end.

Notation "'let*' x := v 'in' w" := (vbind v (fun x => w))
  (at level 10, x name, v at level 100, w at level 200).

(** The path of [field] under [loc]. *)
Definition under (loc : list string) (field : string) : list string :=
  (loc ++ [field])%list.

Definition required (loc : list string) (d : dict) (field : string) : validation value :=
  match d !! field with
  | Some v => inl v
  | None => inr (under loc field, "Field required")
  end.

Definition as_str (loc : list string) (v : value) : validation string :=
  match v with
  | VStr s => inl s
  | _ => inr (loc, "Input should be a valid string")
  end.

Definition as_float (loc : list string) (v : value) : validation Q :=
  match v with
  | VFloat q => inl q
  | VInt z => inl (inject_Z z)
  | _ => inr (loc, "Input should be a valid number")
  end.

Definition as_int (loc : list string) (v : value) : validation Z :=
  match v with
  | VInt z => inl z
  | _ => inr (loc, "Input should be a valid integer")
  end.

Definition as_dict (loc : list string) (v : value) : validation dict :=
  match v with
  | VDict d => inl d
  | _ => inr (loc, "Input should be a valid dictionary")
  end.

Definition as_list (loc : list string) (v : value) : validation (list value) :=
  match v with
  | VList l => inl l
  | _ => inr (loc, "Input should be a valid list")
  end.

Definition str_field (loc : list string) (d : dict) (field : string) : validation string :=
  let* v := required loc d field in as_str (under loc field) v.

Definition float_field (loc : list string) (d : dict) (field : string) : validation Q :=
  let* v := required loc d field in as_float (under loc field) v.

Definition int_field (loc : list string) (d : dict) (field : string) : validation Z :=
  let* v := required loc d field in as_int (under loc field) v.

(** [Optional[str] = None] *)
Definition optional_str_field (loc : list string) (d : dict) (field : string)
  : validation (option string) :=
  match d !! field with
  | None | Some VNone => inl None
  | Some v => let* s := as_str (under loc field) v in inl (Some s)
  end.

(** Each element of a list field, in order, under its index. *)
Fixpoint each {A : Type} (f : list string -> value -> validation A)
    (loc : list string) (i : nat) (l : list value) : validation (list A) :=
  match l with
  | [] => inl []
  | v :: rest =>
      let* a := f (under loc (pretty i)) v in
      let* others := each f loc (S i) rest in
      inl (a :: others)
  end.

Definition validate_OrderItem (loc : list string) (v : value) : validation OrderItem :=
  let* d := as_dict loc v in
  let* product_id := str_field loc d "product_id" in
  let* title := str_field loc d "title" in
  let* price := float_field loc d "price" in
  let* quantity := int_field loc d "quantity" in
  inl {| product_id := product_id; title := title; price := price;
         quantity := quantity |}.

Definition validate_CustomerInfo (loc : list string) (v : value) : validation CustomerInfo :=
  let* d := as_dict loc v in
  let* full_name := str_field loc d "full_name" in
  let* email := str_field loc d "email" in
  let* phone := str_field loc d "phone" in
  let* address_line1 := str_field loc d "address_line1" in
  let* address_line2 := optional_str_field loc d "address_line2" in
  let* city := str_field loc d "city" in
  let* state := str_field loc d "state" in
  let* postal_code := str_field loc d "postal_code" in
  let* country := str_field loc d "country" in
  inl {| full_name := full_name; email := email; phone := phone;
         address_line1 := address_line1; address_line2 := address_line2;
         city := city; state := state; postal_code := postal_code;
         country := country |}.

Definition validate_OrderPayload (loc : list string) (v : value) : validation OrderPayload :=
  let* d := as_dict loc v in
  let* its := required loc d "items" in
  let* its := as_list (under loc "items") its in
  let* items := each validate_OrderItem (under loc "items") 0 its in
  let* cust := required loc d "customer" in
  let* customer := validate_CustomerInfo (under loc "customer") cust in
  let* notes := optional_str_field loc d "notes" in
  let* subtotal := float_field loc d "subtotal" in
  let* shipping := float_field loc d "shipping" in
  let* total := float_field loc d "total" in
  inl {| items := items; customer := customer; notes := notes;
         subtotal := subtotal; shipping := shipping; total := total |}.

(** [POST /api/orders] as the client sees it: the body is validated against
    [OrderPayload], then [create_order] runs. *)
Definition post_orders (body : value) : prog dict :=
  match validate_OrderPayload ["body"] body with
  | inl payload => create_order payload
  | inr (loc, msg) => Raise (RequestValidationError loc msg)
  end.

(** [Literal[...] = default]: absent, the default; present, one of the
    allowed texts. *)
Definition literal_field (loc : list string) (d : dict) (field : string)
    (allowed : list string) (default_value : string) : validation string :=
  match d !! field with
  | None => inl default_value
  | Some (VStr s) =>
      if existsb (String.eqb s) allowed then inl s
      else inr (under loc field, "Input should be one of the allowed values")
  | Some _ => inr (under loc field, "Input should be one of the allowed values")
  end.

(** ** The order models of [schemas.py] *)

Module Schemas.

(** [quantity: int = Field(..., ge=1)] *)
Definition validate_OrderItem (loc : list string) (v : value) : validation OrderItem :=
  let* d := as_dict loc v in
  let* product_id := str_field loc d "product_id" in
  let* title := str_field loc d "title" in
  let* price := float_field loc d "price" in
  let* quantity := int_field loc d "quantity" in
  if 1 <=? quantity then
    inl {| product_id := product_id; title := title; price := price;
           quantity := quantity |}
  else inr (under loc "quantity", "Input should be greater than or equal to 1").

(** [email: EmailStr]; [validate_email] is the e-mail validation library: it
    gives the normalised address, which is the value of the field, or the
    reason why the text is not an address. *)
Definition validate_CustomerInfo (validate_email : string -> string + string)
    (loc : list string) (v : value) : validation CustomerInfo :=
  let* d := as_dict loc v in
  let* full_name := str_field loc d "full_name" in
  let* email := str_field loc d "email" in
  match validate_email email with
  | inl normalized =>
      let* phone := str_field loc d "phone" in
      let* address_line1 := str_field loc d "address_line1" in
      let* address_line2 := optional_str_field loc d "address_line2" in
      let* city := str_field loc d "city" in
      let* state := str_field loc d "state" in
      let* postal_code := str_field loc d "postal_code" in
      let* country := str_field loc d "country" in
      inl {| full_name := full_name; email := normalized; phone := phone;
             address_line1 := address_line1; address_line2 := address_line2;
             city := city; state := state; postal_code := postal_code;
             country := country |}
  | inr reason =>
      inr (under loc "email", "value is not a valid email address: " ++ reason)
  end.

(** [class Order]: the order as the collection [order] keeps it. *)
Record Order : Type := {
  items : list OrderItem;
  customer : CustomerInfo;
  notes : option string;
  subtotal : Q;
  shipping : Q;
  total : Q;
  payment_method : string;
  status : string
}.

(** The values of [status]. *)
Definition statuses : list string :=
  ["received"; "processing"; "shipped"; "delivered"; "cancelled"].

(** [payment_method: Literal["cod"] = "cod"] and [status], one of [statuses],
    [received] by default. *)
Definition validate_Order (validate_email : string -> string + string)
    (loc : list string) (v : value) : validation Order :=
  let* d := as_dict loc v in
  let* its := required loc d "items" in
  let* its := as_list (under loc "items") its in
  let* items := each validate_OrderItem (under loc "items") 0 its in
  let* cust := required loc d "customer" in
  let* customer := validate_CustomerInfo validate_email (under loc "customer") cust in
  let* notes := optional_str_field loc d "notes" in
  let* subtotal := float_field loc d "subtotal" in
  let* shipping := float_field loc d "shipping" in
  let* total := float_field loc d "total" in
  let* payment_method := literal_field loc d "payment_method" ["cod"] "cod" in
  let* status := literal_field loc d "status" statuses "received" in
  inl {| items := items; customer := customer; notes := notes;
         subtotal := subtotal; shipping := shipping; total := total;
         payment_method := payment_method; status := status |}.

End Schemas.

(** ** [GET /test] *)

(** [db] is the module-level handle of the database layer ([None] when the
    connection was not configured); [getenv] is [os.getenv]. *)
Definition test_database (db : option unit) (getenv : string -> option string)
  : prog dict :=
  let response : dict :=
    <["backend" := VStr "✅ Running"]>
    (<["database" := VStr "❌ Not Available"]>
    (<["database_url" := VStr "❌ Not Set"]>
    (<["database_name" := VStr "❌ Not Set"]>
    (<["connection_status" := VStr "Not Connected"]>
    (<["collections" := VList []]> ∅))))) in
  try
    (match db with
     | Some _ =>
         let response := <["database" := VStr "✅ Available"]> response in
         let response :=
           <["database_url" :=
               VStr (if truthy (getenv "DATABASE_URL") then "✅ Set" else "❌ Not Set")]>
             response in
         let response :=
           <["database_name" :=
               VStr (if truthy (getenv "DATABASE_NAME") then "✅ Set" else "❌ Not Set")]>
             response in
         try
           (names <- list_collection_names ;;
            let response := <["collections" := VList (VStr <$> take 10 names)]> response in
            let response := <["database" := VStr "✅ Connected & Working"]> response in
            let response := <["connection_status" := VStr "Connected"]> response in
            Ret response)
         except e =>
           Ret (<["database" :=
                    VStr ("⚠️ Connected but Error: " ++ substring 0 80 (str_exn e))]>
                  response)
     | None => Ret (<["database" := VStr "❌ Database not initialized"]> response)
     end)
  except e =>
    Ret (<["database" := VStr ("❌ Error: " ++ substring 0 80 (str_exn e))]> response).

(** ** A document store to run the handlers against *)

(** Modelled from the spec: the external document store behind the database
    layer ([database.py] is not part of the sources), with its three
    operations [insert(collection, document) -> id],
    [find(collection, filter, limit) -> documents] and
    [listCollections() -> names].  A store holds its collections, the next
    identifier it will assign, and the fate of its coming calls: [Some msg]
    makes a call fail with [msg] and no effect, [None] lets it go through,
    and so does an exhausted schedule. *)
Record Store : Type := {
  collections : gmap string (list dict);
  next_id : N;
  faults : list (option string)
}.

Definition hex_digit (n : N) : ascii :=
  nth (N.to_nat n) (list_ascii_of_string "0123456789abcdef") "0"%char.

Fixpoint hex (digits : nat) (n : N) : string :=
  match digits with
  | O => ""
  | S d => hex d (n / 16)%N ++ String (hex_digit (n mod 16)%N) ""
  end.

(** The text of an [ObjectId]: 24 hexadecimal digits. *)
Definition oid_hex (n : N) : string := hex 24 n.

Definition documents (st : Store) (collection : string) : list dict :=
  default [] (collections st !! collection).

Definition with_faults (st : Store) (rest : list (option string)) : Store :=
  {| collections := collections st; next_id := next_id st; faults := rest |}.

Definition next_fault (st : Store) : option string * Store :=
  match faults st with
  | [] => (None, st)
  | fault :: rest => (fault, with_faults st rest)
  end.

Fixpoint select (filter : dict) (docs : list dict) : option (list dict) :=
  match docs with
  | [] => Some []
  | d :: rest =>
      match matches filter d, select filter rest with
      | Some true, Some chosen => Some (d :: chosen)
      | Some false, Some chosen => Some chosen
      | _, _ => None
      end
  end.

(** A limit of zero means no limit. *)
Definition at_most (limit : Z) (docs : list dict) : list dict :=
  if limit =? 0 then docs else take (Z.to_nat (Z.abs limit)) docs.

Definition store_find (collection : string) (filter : dict) (limit : Z) (st : Store)
  : outcome (list dict) * Store :=
  match next_fault st with
  | (Some msg, st') => (Raised (Exception msg), st')
  | (None, st') =>
      match select filter (documents st' collection) with
      | Some docs => (Returned (at_most limit docs), st')
      | None => (Raised (Exception "filter outside the modelled fragment"), st')
      end
  end.

(** A document as the store keeps it: under the identifier it was given. *)
Definition stored (oid : N) (data : dict) : dict := <["_id" := VOid oid]> data.

Definition after_insert (collection : string) (data : dict) (st : Store) : Store :=
  {| collections :=
       <[collection := (documents st collection ++ [stored (next_id st) data])%list]>
         (collections st);
     next_id := N.succ (next_id st);
     faults := faults st |}.

Definition store_insert (collection : string) (data : dict) (st : Store)
  : outcome string * Store :=
  match next_fault st with
  | (Some msg, st') => (Raised (Exception msg), st')
  | (None, st') => (Returned (oid_hex (next_id st')), after_insert collection data st')
  end.

Definition store_list_collections (st : Store) : outcome (list string) * Store :=
  match next_fault st with
  | (Some msg, st') => (Raised (Exception msg), st')
  | (None, st') => (Returned (fst <$> map_to_list (collections st')), st')
  end.

(** Running a handler against a store. *)
Fixpoint exec {R : Type} (p : prog R) (st : Store) : outcome R * Store :=
  match p with
  | Ret r => (Returned r, st)
  | Raise e => (Raised e, st)
  | GetDocuments collection filter limit k =>
      let (o, st') := store_find collection filter limit st in exec (k o) st'
  | CreateDocument collection data k =>
      let (o, st') := store_insert collection data st in exec (k o) st'
  | ListCollectionNames k =>
      let (o, st') := store_list_collections st in exec (k o) st'
  end.

(** A store with no pending fault. *)
Definition healthy (st : Store) : Prop := faults st = [].

(** ** Predicates on listed documents *)

(** The price of a document, when it has a numeric one. *)
Definition price_of (doc : dict) : option Q := doc !! "price" ≫= number.

(** [lo <= price], for a lower bound that was supplied. *)
Definition ge_bound (min_price : option Q) (x : option Q) : bool :=
  match min_price with
  | Some lo => match x with Some p => Qle_bool lo p | None => false end
  | None => true
  end.

(** [price <= hi], for an upper bound that was supplied. *)
Definition le_bound (max_price : option Q) (x : option Q) : bool :=
  match max_price with
  | Some hi => match x with Some p => Qle_bool p hi | None => false end
  | None => true
  end.

(** [category == C], for a category that is not the empty string. *)
Definition category_ok (category : option string) (doc : dict) : bool :=
  match category with
  | Some c =>
      if String.eqb c "" then true
      else match doc !! "category" with
           | Some (VStr s') => String.eqb c s'
           | _ => false
           end
  | None => true
  end.

(** The part of the filter that comes from [q]. *)
Definition text_ok (q : option string) (doc : dict) : option bool :=
  match q with
  | Some text =>
      if String.eqb text "" then Some true
      else match_condition doc "$or" (text_clauses text)
  | None => Some true
  end.

Fixpoint prefix_b (p s : string) : bool :=
  match p, s with
  | EmptyString, _ => true
  | String a p', String b s' => Ascii.eqb a b && prefix_b p' s'
  | String _ _, EmptyString => false
  end.

(** Plain substring test. *)
Fixpoint contains_b (needle hay : string) : bool :=
  prefix_b needle hay ||
  match hay with
  | EmptyString => false
  | String _ hay' => contains_b needle hay'
  end.

(** A search term without any character that a regular expression reads as
    an operator, and without the null character, which a pattern cannot
    hold. *)
Definition plain (q : string) : bool :=
  forallb (fun c => negb (is_meta c) && negb (Ascii.eqb c "000"))
    (list_ascii_of_string q).

(** The spec's words: [title] case-insensitively contains [q]. *)
Definition title_contains (q : string) (doc : dict) : Prop :=
  exists t, doc !! "title" = Some (VStr t) /\ ci_contains q t.

(** The spec's words: at least one element of [tags] case-insensitively
    contains [q]. *)
Definition some_tag_contains (q : string) (doc : dict) : Prop :=
  exists tags t, doc !! "tags" = Some (VList tags) /\ VStr t ∈ tags /\ ci_contains q t.

(** What [{"$regex": q, "$options": "i"}] answers on one value. *)
Definition regex_on (q : string) (fv : value) : option bool :=
  match fv with
  | VStr subject => regex_search q (Some (VStr "i")) subject
  | _ => regex_search q (Some (VStr "i")) "" ≫= fun _ => Some false
  end.

(** What [{"$elemMatch": {"$regex": q, "$options": "i"}}] answers on one value. *)
Definition tags_on (q : string) (fv : value) : option bool :=
  match fv with
  | VList elems => any_element (regex_on q) elems
  | _ => regex_on q VNone ≫= fun _ => Some false
  end.

Definition contains_in (q : string) (fv : value) : bool :=
  match fv with
  | VStr t => contains_b (lower_str q) (lower_str t)
  | _ => false
  end.

(** A product written by another client of the store, with an [id] field of
    its own, and a document that comes back without [_id]. *)
Definition legacy_product : dict :=
  <["_id" := VOid 7]>
  (<["id" := VInt 42]>
  (<["title" := VStr "Legacy Bracket"]>
  (<["category" := VStr "3d-printed"]>
  (<["price" := VFloat (5 # 1)]> ∅)))).

Definition bare_product : dict :=
  <["title" := VStr "Untracked Spacer"]>
  (<["category" := VStr "3d-printed"]>
  (<["price" := VFloat (1 # 1)]> ∅)).

(** ** Order bodies *)

Definition customer_json (email : string) : value :=
  VDict
    (<["full_name" := VStr "Ada Lovelace"]>
    (<["email" := VStr email]>
    (<["phone" := VStr "+44 20 7946 0000"]>
    (<["address_line1" := VStr "12 St James Square"]>
    (<["city" := VStr "London"]>
    (<["state" := VStr "London"]>
    (<["postal_code" := VStr "SW1Y 4JH"]>
    (<["country" := VStr "GB"]> ∅)))))))).

Definition item_json (quantity : Z) : value :=
  VDict
    (<["product_id" := VStr "precision-servo-mount"]>
    (<["title" := VStr "Precision Servo Mount"]>
    (<["price" := VFloat (999 # 100)]>
    (<["quantity" := VInt quantity]> ∅)))).

Definition order_json (items : list value) (email : string) : dict :=
  <["items" := VList items]>
  (<["customer" := customer_json email]>
  (<["subtotal" := VFloat (999 # 100)]>
  (<["shipping" := VFloat (5 # 1)]>
  (<["total" := VFloat (1499 # 100)]> ∅)))).

(** One item in quantity zero, and an e-mail address without an [@]. *)
Definition malformed_order : value :=
  VDict (order_json [item_json 0] "not-an-email").

(** A well-formed order whose sender asks for another payment method and
    status. *)
Definition card_order : value :=
  VDict (<["payment_method" := VStr "card"]>
        (<["status" := VStr "shipped"]>
        (order_json [item_json 2] "ada@example.org"))).

Definition empty_order : value :=
  VDict (order_json [] "ada@example.org").

(** [card_order] as [OrderPayload] reads it. *)
Definition card_payload : OrderPayload :=
  {| items :=
       [ {| product_id := "precision-servo-mount"; title := "Precision Servo Mount";
            price := 999 # 100; quantity := 2 |} ];
     customer :=
       {| full_name := "Ada Lovelace"; email := "ada@example.org";
          phone := "+44 20 7946 0000"; address_line1 := "12 St James Square";
          address_line2 := None; city := "London"; state := "London";
          postal_code := "SW1Y 4JH"; country := "GB" |};
     notes := None; subtotal := 999 # 100; shipping := 5 # 1; total := 1499 # 100 |}.

(** The detail of the error raised for an order without items. *)
Definition missing_items : string := "Order must contain at least one item".

(** A store whose third call fails. *)
Definition failing_store : Store :=
  {| collections := ∅; next_id := 0; faults := [None; None; Some "connection reset"] |}.

Definition empty_store : Store :=
  {| collections := ∅; next_id := 0; faults := [] |}.

(** ** Outcomes of a handler *)

(** What one call to the database layer answered. *)
Inductive answer : Type :=
| GotDocuments (o : outcome (list dict))
| GotId (o : outcome string)
| GotNames (o : outcome (list string)).

(** Every run of [p] ends in an outcome that [P] relates to the answers the
    store gave on the way, in order; [history] holds the answers so far. *)
Fixpoint outcomes_with {R : Type} (P : list answer -> outcome R -> Prop)
    (history : list answer) (p : prog R) : Prop :=
  match p with
  | Ret r => P history (Returned r)
  | Raise e => P history (Raised e)
  | GetDocuments _ _ _ k =>
      forall o, outcomes_with P (history ++ [GotDocuments o])%list (k o)
  | CreateDocument _ _ k =>
      forall o, outcomes_with P (history ++ [GotId o])%list (k o)
  | ListCollectionNames k =>
      forall o, outcomes_with P (history ++ [GotNames o])%list (k o)
  end.

(** The documents of [data] as the store keeps them when it inserts them one
    after the other, starting at identifier [oid]. *)
Fixpoint stored_from (oid : N) (data : list dict) : list dict :=
  match data with
  | [] => []
  | d :: rest => stored oid d :: stored_from (N.succ oid) rest
  end.

(** ** Documents the handlers produce *)

(** The body the seed operation returns when products exist. *)
Definition already_seeded : dict :=
  <["inserted" := VInt 0]> {[ "message" := VStr "Products already exist" ]}.



(** The document [create_order] hands to the store. *)
Definition order_document (payload : OrderPayload) : dict :=
  <["status" := VStr "received"]> (<["payment_method" := VStr "cod"]> (model_dump payload)).

(** The customer with the e-mail address replaced. *)
Definition with_email (c : CustomerInfo) (address : string) : CustomerInfo :=
  {| full_name := full_name c; email := address; phone := phone c;
     address_line1 := address_line1 c; address_line2 := address_line2 c;
     city := city c; state := state c; postal_code := postal_code c;
     country := country c |}.

(** Every item is in quantity one at least. *)
Definition quantities_ok (its : list OrderItem) : bool :=
  forallb (fun it => 1 <=? quantity it) its.

(** ** Tactics *)

(** Go through a validation field by field. *)
Ltac step_validation :=
  repeat match goal with
         | |- context [vbind ?x _] =>
             lazymatch x with
             | inl _ => cbn [vbind]
             | inr _ => cbn [vbind]
             | _ => destruct x as [?|[? ?]] eqn:?; cbn [vbind]
             end
         end.

(** Unfold a handler up to its next call to the store. *)
Ltac run_handler :=
  cbn [calls_le always_returns try_except bind resume get_documents create_document
       list_collection_names insert_samples samples].

(** Run a handler against a store, one store call after the other. *)
Ltac run_store :=
  cbn [exec store_find store_insert store_list_collections next_fault with_faults
       faults collections next_id select at_most Z.eqb
       seed_sample_products insert_samples samples try_except bind resume
       get_documents create_document list_collection_names].

(** * Properties *)

(** ** Dictionaries and filters *)

Lemma andb_opt_swap (a b c : option bool) :
  andb_opt a (andb_opt b c) = andb_opt b (andb_opt a c).
Proof. destruct a as [[]|], b as [[]|], c as [[]|]; reflexivity. Qed.

Lemma all_bindings_empty (g : string -> value -> option bool) :
  all_bindings g ∅ = Some true.
Proof. unfold all_bindings. apply map_fold_empty. Qed.

Lemma all_bindings_insert (g : string -> value -> option bool) (m : dict) k v :
  m !! k = None ->
  all_bindings g (<[k := v]> m) = andb_opt (g k v) (all_bindings g m).
Proof.
  intros Hk. unfold all_bindings.
  apply (map_fold_insert_L (fun k v acc => andb_opt (g k v) acc)); [|exact Hk].
  intros. apply andb_opt_swap.
Qed.

Lemma all_bindings_singleton (g : string -> value -> option bool) k v :
  all_bindings g {[ k := v ]} = andb_opt (g k v) (Some true).
Proof.
  rewrite <- insert_empty, all_bindings_insert by apply lookup_empty.
  now rewrite all_bindings_empty.
Qed.

Lemma andb_opt_true_r a : andb_opt a (Some true) = a.
Proof. destruct a as [[]|]; reflexivity. Qed.

Lemma price_filter_matches (min_price max_price : option Q) (fv : value) :
  match_operators (price_filter min_price max_price) fv =
  Some (ge_bound min_price (number fv) && le_bound max_price (number fv)).
Proof.
  unfold match_operators, price_filter.
  destruct min_price as [lo|], max_price as [hi|];
    rewrite ?all_bindings_insert, all_bindings_empty by done; cbn;
    f_equal; destruct (number fv); cbn; rewrite ?andb_true_r; auto using andb_comm.
Qed.

Lemma number_default (o : option value) : number (default VNone o) = o ≫= number.
Proof. destruct o; reflexivity. Qed.

Lemma matches_empty doc : matches ∅ doc = Some true.
Proof. apply all_bindings_empty. Qed.

Lemma matches_insert filter doc key cond :
  filter !! key = None ->
  matches (<[key := cond]> filter) doc =
  andb_opt (match_condition doc key cond) (matches filter doc).
Proof. apply all_bindings_insert. Qed.

Lemma filter_dict_matches q category min_price max_price doc :
  matches (filter_dict q category min_price max_price) doc =
  andb_opt (text_ok q doc)
    (Some (category_ok category doc &&
           (ge_bound min_price (price_of doc) && le_bound max_price (price_of doc)))).
Proof.
  assert (Hcat : forall c, match_condition doc "category" (VStr c) =
            Some (match doc !! "category" with Some (VStr s') => String.eqb c s' | _ => false end))
    by reflexivity.
  assert (Hprice : match_condition doc "price" (VDict (price_filter min_price max_price)) =
            Some (ge_bound min_price (price_of doc) && le_bound max_price (price_of doc))).
  { change (match_operators (price_filter min_price max_price) (default VNone (doc !! "price")) = 
      Some (ge_bound min_price (price_of doc) && le_bound max_price (price_of doc))).
    rewrite price_filter_matches, number_default. reflexivity. }
  unfold filter_dict, text_ok, truthy, category_ok.
  destruct q as [text|]; [destruct (String.eqb text "")|];
  (destruct category as [c|]; [destruct (String.eqb c "")|]);
  cbn [negb];
  (destruct min_price as [lo|]; destruct max_price as [hi|]; cbn [is_not_None orb]).
  all: rewrite ?matches_insert by done.
  all: rewrite ?matches_empty, ?Hcat, ?Hprice.
  all: try reflexivity.
  all: cbn [andb_opt ge_bound le_bound andb]; rewrite ?andb_true_r; try reflexivity.
  all: first [ f_equal; apply andb_comm | f_equal; f_equal; apply andb_comm ].
Qed.

Lemma ge_bound_spec min_price x :
  ge_bound min_price x = true <->
  forall lo, min_price = Some lo -> exists p, x = Some p /\ (lo <= p)%Q.
Proof.
  unfold ge_bound. destruct min_price as [lo|].
  - destruct x as [p|].
    + rewrite Qle_bool_iff. split.
      * intros H lo' [= <-]. eauto.
      * intros H. destruct (H lo eq_refl) as (p' & [= <-] & Hp). exact Hp.
    + split; [discriminate|]. intros H. destruct (H lo eq_refl) as (p' & [=] & _).
  - split; [intros _ lo [=]|reflexivity].
Qed.

Lemma category_ok_spec category doc :
  category_ok category doc = true <->
  forall C, category = Some C -> C <> "" -> doc !! "category" = Some (VStr C).
Proof.
  unfold category_ok. destruct category as [c|].
  - destruct (String.eqb_spec c "") as [->|Hne].
    + split; [intros _ C [= <-] H; congruence|reflexivity].
    + split.
      * intros H C [= <-] _. destruct (doc !! "category") as [[]|]; try discriminate.
        apply String.eqb_eq in H. congruence.
      * intros H. rewrite (H c eq_refl Hne). apply String.eqb_refl.
  - split; [intros _ C [=]|reflexivity].
Qed.


(** ** Text search *)

Lemma prefix_b_spec p s : prefix_b p s = true <-> exists post, s = p ++ post.
Proof.
  revert s. induction p as [|a p IH]; intros s; cbn.
  - split; eauto.
  - destruct s as [|b s]; cbn.
    + split; [discriminate|]. intros [post [=]].
    + rewrite andb_true_iff, IH. split.
      * intros [Hab [post ->]]. apply Ascii.eqb_eq in Hab as ->. eauto.
      * intros [post [= -> ->]]. split; [apply Ascii.eqb_refl|eauto].
Qed.

Lemma contains_b_spec needle hay :
  contains_b needle hay = true <-> exists pre post, hay = pre ++ needle ++ post.
Proof.
  induction hay as [|b hay IH]; cbn.
  - rewrite orb_false_r, prefix_b_spec. split.
    + intros [post H]. exists "", post. exact H.
    + intros (pre & post & H). destruct pre as [|c pre]; [eauto|discriminate].
  - rewrite orb_true_iff, prefix_b_spec, IH. split.
    + intros [[post H]|(pre & post & ->)].
      * exists "", post. exact H.
      * exists (String b pre), post. reflexivity.
    + intros (pre & post & H). destruct pre as [|c pre]; cbn in H.
      * left. eauto.
      * right. injection H as -> ->. eauto.
Qed.

Lemma ci_contains_decide needle hay :
  ci_contains needle hay <-> contains_b (lower_str needle) (lower_str hay) = true.
Proof. unfold ci_contains. now rewrite contains_b_spec. Qed.

Lemma parse_regex_plain q :
  plain q = true -> parse_regex q = Some (Lit <$> list_ascii_of_string q).
Proof.
  unfold plain. induction q as [|c q IH]; cbn; [reflexivity|].
  rewrite !andb_true_iff, negb_true_iff. intros [[Hc _] Hq].
  destruct (Ascii.eqb_spec c ".") as [->|_]; [discriminate|].
  rewrite Hc, (IH Hq). reflexivity.
Qed.

Lemma match_here_literals q s :
  match_here true (Lit <$> list_ascii_of_string q) s = prefix_b (lower_str q) (lower_str s).
Proof.
  revert s. induction q as [|c q IH]; intros s; cbn; [reflexivity|].
  destruct s as [|b s]; cbn; [reflexivity|]. now rewrite IH.
Qed.

Lemma search_literals q s :
  search true (Lit <$> list_ascii_of_string q) s = contains_b (lower_str q) (lower_str s).
Proof.
  induction s as [|b s IH].
  - cbn [search lower_str contains_b]. now rewrite match_here_literals.
  - cbn [search lower_str contains_b]. now rewrite match_here_literals, IH.
Qed.

Lemma regex_search_plain q s :
  plain q = true ->
  regex_search q (Some (VStr "i")) s = Some (contains_b (lower_str q) (lower_str s)).
Proof.
  intros Hq. unfold regex_search. rewrite (parse_regex_plain q Hq). cbn.
  now rewrite search_literals.
Qed.

Lemma regex_condition_on q fv :
  all_bindings (match_operator (regex_condition q) fv) (regex_condition q) = regex_on q fv.
Proof.
  unfold regex_condition at 2.
  rewrite all_bindings_insert, all_bindings_singleton by done.
  change (andb_opt (regex_on q fv) (andb_opt (Some true) (Some true)) = regex_on q fv).
  apply andb_opt_true_r.
Qed.

Lemma regex_condition_matches q fv :
  match_operators (regex_condition q) fv = regex_on q fv.
Proof.
  unfold match_operators, regex_condition at 2.
  rewrite all_bindings_insert, all_bindings_singleton by done.
  change (andb_opt (regex_on q fv) (andb_opt (Some true) (Some true)) = regex_on q fv).
  apply andb_opt_true_r.
Qed.

Lemma any_element_ext {A} (f g : A -> option bool) l :
  (forall x, f x = g x) -> any_element f l = any_element g l.
Proof.
  intros H. unfold any_element.
  induction l as [|x l IH]; simpl; [reflexivity|]. rewrite H. f_equal. exact IH.
Qed.

Lemma text_clauses_match q doc :
  match_condition doc "$or" (text_clauses q) =
  orb_opt (regex_on q (default VNone (doc !! "title")))
          (tags_on q (default VNone (doc !! "tags"))).
Proof.
  unfold text_clauses.
  change (orb_opt (all_bindings (match_field doc) {[ "title" := VDict (regex_condition q) ]})
            (orb_opt (all_bindings (match_field doc)
                        {[ "tags" := VDict {[ "$elemMatch" := VDict (regex_condition q) ]} ]})
                     (Some false)) = 
          orb_opt (regex_on q (default VNone (doc !! "title")))
          (tags_on q (default VNone (doc !! "tags")))).
  rewrite !all_bindings_singleton, !andb_opt_true_r.
  cbn [match_field]. rewrite regex_condition_matches.
  unfold match_operators. rewrite all_bindings_singleton, andb_opt_true_r.
  f_equal.
  assert (Hr : forall (a : option bool), orb_opt a (Some false) = a)
    by (intros [[]|]; reflexivity).
  rewrite Hr. unfold match_operator_at. cbn [String.eqb Ascii.eqb Bool.eqb].
  unfold tags_on. destruct (default VNone (doc !! "tags")); try (rewrite regex_condition_on; reflexivity).
  apply any_element_ext. intros el. apply regex_condition_on.
Qed.

Lemma any_element_Some {A} (f : A -> bool) (l : list A) :
  any_element (fun x => Some (f x)) l = Some (existsb f l).
Proof.
  unfold any_element, orb_opt. induction l as [|x l IH]; simpl; [reflexivity|]. now rewrite IH.
Qed.

Lemma regex_on_plain q fv : plain q = true -> regex_on q fv = Some (contains_in q fv).
Proof.
  intros Hq. unfold regex_on, contains_in.
  destruct fv; rewrite (regex_search_plain q _ Hq); reflexivity.
Qed.

Lemma tags_on_plain q fv :
  plain q = true ->
  tags_on q fv = Some (match fv with VList tags => existsb (contains_in q) tags | _ => false end).
Proof.
  intros Hq. unfold tags_on.
  destruct fv; rewrite ?(regex_on_plain q _ Hq); try reflexivity.
  rewrite <- any_element_Some. apply any_element_ext. intros el. now apply regex_on_plain.
Qed.

Lemma contains_in_title q doc :
  contains_in q (default VNone (doc !! "title")) = true <-> title_contains q doc.
Proof.
  unfold title_contains, contains_in. split.
  - destruct (doc !! "title") as [[]|]; cbn; try discriminate.
    intros H. eexists. split; [reflexivity|]. now apply ci_contains_decide.
  - intros (t & -> & H). cbn. now apply ci_contains_decide.
Qed.

Lemma contains_in_tags q doc :
  match default VNone (doc !! "tags") with
  | VList tags => existsb (contains_in q) tags
  | _ => false
  end = true <-> some_tag_contains q doc.
Proof.
  unfold some_tag_contains. split.
  - destruct (doc !! "tags") as [[]|]; cbn; try discriminate.
    rewrite existsb_exists. intros (el & Hin & H).
    destruct el; try discriminate. cbn in H.
    eexists _, _. split; [reflexivity|]. split.
    + apply list_elem_of_In. exact Hin.
    + now apply ci_contains_decide.
  - intros (tags & t & -> & Hin & H). cbn. rewrite existsb_exists.
    exists (VStr t). split; [now apply list_elem_of_In|]. cbn. now apply ci_contains_decide.
Qed.

Lemma le_bound_spec max_price x :
  le_bound max_price x = true <->
  forall hi, max_price = Some hi -> exists p, x = Some p /\ (p <= hi)%Q.
Proof.
  unfold le_bound. destruct max_price as [hi|].
  - destruct x as [p|].
    + rewrite Qle_bool_iff. split.
      * intros H hi' [= <-]. eauto.
      * intros H. destruct (H hi eq_refl) as (p' & [= <-] & Hp). exact Hp.
    + split; [discriminate|]. intros H. destruct (H hi eq_refl) as (p' & [=] & _).
  - split; [intros _ hi [=]|reflexivity].
Qed.

(** ** The entries of the filter *)

Lemma truthy_Some (s : string) : truthy (Some s) = true <-> s <> "".
Proof.
  unfold truthy. destruct (String.eqb_spec s "") as [->|Hne]; cbn.
  - split; [discriminate|congruence].
  - split; [trivial|reflexivity].
Qed.

Lemma filter_dict_lookup_or q category min_price max_price :
  filter_dict q category min_price max_price !! "$or" =
  match q with
  | Some text => if truthy q then Some (text_clauses text) else None
  | None => None
  end.
Proof.
  unfold filter_dict.
  destruct q as [text|]; [destruct (truthy (Some text))|];
    (destruct category as [c|]; [destruct (truthy (Some c))|]);
    destruct (is_not_None min_price || is_not_None max_price);
    by simplify_map_eq.
Qed.

Lemma filter_dict_lookup_category q category min_price max_price :
  filter_dict q category min_price max_price !! "category" =
  match category with
  | Some c => if truthy category then Some (VStr c) else None
  | None => None
  end.
Proof.
  unfold filter_dict.
  destruct q as [text|]; [destruct (truthy (Some text))|];
    (destruct category as [c|]; [destruct (truthy (Some c))|]);
    destruct (is_not_None min_price || is_not_None max_price);
    by simplify_map_eq.
Qed.

Lemma filter_dict_lookup_price q category min_price max_price :
  filter_dict q category min_price max_price !! "price" =
  if is_not_None min_price || is_not_None max_price
  then Some (VDict (price_filter min_price max_price)) else None.
Proof.
  unfold filter_dict.
  destruct q as [text|]; [destruct (truthy (Some text))|];
    (destruct category as [c|]; [destruct (truthy (Some c))|]);
    destruct (is_not_None min_price || is_not_None max_price);
    by simplify_map_eq.
Qed.

Lemma price_filter_lookup_gte min_price max_price :
  price_filter min_price max_price !! "$gte" = VFloat <$> min_price.
Proof.
  unfold price_filter. destruct min_price, max_price; by simplify_map_eq.
Qed.

Lemma price_filter_lookup_lte min_price max_price :
  price_filter min_price max_price !! "$lte" = VFloat <$> max_price.
Proof.
  unfold price_filter. destruct min_price, max_price; by simplify_map_eq.
Qed.

(** C9.  In [list_products] the string parameters [q] and [category] add an
    entry to the filter exactly when they are non-empty, so that an empty
    string gives the same filter as an absent parameter; the numeric bounds
    add their operator whenever they are supplied, whatever their value, so
    that [min_price = 0.0] still yields [price >= 0]. *)
Theorem filter_dict_constraints (q category : option string)
    (min_price max_price : option Q) :
  let f := filter_dict q category min_price max_price in
  filter_dict (Some "") category min_price max_price =
    filter_dict None category min_price max_price /\
  filter_dict q (Some "") min_price max_price =
    filter_dict q None min_price max_price /\
  (forall py_str limit,
     list_products py_str (Some "") (Some "") min_price max_price limit =
     list_products py_str None None min_price max_price limit) /\
  (is_Some (f !! "$or") <-> exists text, q = Some text /\ text <> "") /\
  (is_Some (f !! "category") <-> exists c, category = Some c /\ c <> "") /\
  (forall c, category = Some c -> c <> "" -> f !! "category" = Some (VStr c)) /\
  (is_Some (f !! "price") <-> min_price <> None \/ max_price <> None) /\
  (forall lo, min_price = Some lo ->
     exists bounds, f !! "price" = Some (VDict bounds) /\
                    bounds !! "$gte" = Some (VFloat lo)) /\
  (forall hi, max_price = Some hi ->
     exists bounds, f !! "price" = Some (VDict bounds) /\
                    bounds !! "$lte" = Some (VFloat hi)) /\
  (exists bounds,
     filter_dict q category (Some 0%Q) max_price !! "price" = Some (VDict bounds) /\
     bounds !! "$gte" = Some (VFloat 0%Q)).
Proof.
  intros f. subst f.
  rewrite filter_dict_lookup_or, filter_dict_lookup_category, !filter_dict_lookup_price.
  repeat apply conj.
  - reflexivity.
  - reflexivity.
  - reflexivity.
  - destruct q as [text|]; [|intros [? [=]]].
    destruct (truthy (Some text)) eqn:E; [|intros [? [=]]].
    intros _. exists text. split; [reflexivity|]. now apply truthy_Some.
  - intros (text & -> & Hne). apply truthy_Some in Hne. rewrite Hne. eauto.
  - destruct category as [c|]; [|intros [? [=]]].
    destruct (truthy (Some c)) eqn:E; [|intros [? [=]]].
    intros _. exists c. split; [reflexivity|]. now apply truthy_Some.
  - intros (c & -> & Hne). apply truthy_Some in Hne. rewrite Hne. eauto.
  - intros c -> Hne. apply truthy_Some in Hne. now rewrite Hne.
  - destruct min_price, max_price; cbn; intros [? H]; try discriminate H;
      (left; discriminate) || (right; discriminate).
  - destruct min_price, max_price; cbn; eauto. intros [H|H]; congruence.
  - intros lo ->. cbn. eexists. split; [reflexivity|]. now rewrite price_filter_lookup_gte.
  - intros hi ->. rewrite orb_true_r. eexists. split; [reflexivity|].
    now rewrite price_filter_lookup_lte.
  - eexists. split; [reflexivity|]. now rewrite price_filter_lookup_gte.
Qed.

(** ** Selection by category and price *)

Lemma select_spec (filter : dict) (docs chosen : list dict) :
  select filter docs = Some chosen ->
  forall d, d ∈ chosen <-> d ∈ docs /\ matches filter d = Some true.
Proof.
  revert chosen. induction docs as [|x docs IH]; intros chosen; cbn.
  - intros [= <-] d. split; [intros H; inversion H|intros [H _]; inversion H].
  - destruct (matches filter x) as [[]|] eqn:Hx; [| |discriminate];
      (destruct (select filter docs) as [rest|]; [|discriminate]);
      intros [= <-] d; specialize (IH rest eq_refl d).
    + rewrite !elem_of_cons, IH. split.
      * intros [->|[H1 H2]]; auto.
      * intros [[->|H1] H2]; auto.
    + rewrite elem_of_cons, IH. split.
      * intros [H1 H2]; auto.
      * intros [[->|H1] H2]; [congruence|auto].
Qed.

Lemma select_defined (filter : dict) (docs : list dict) :
  (forall d, d ∈ docs -> is_Some (matches filter d)) ->
  is_Some (select filter docs).
Proof.
  induction docs as [|x docs IH]; intros H; cbn; [eauto|].
  destruct (H x) as [b Hb]; [left|]. rewrite Hb.
  destruct IH as [rest ->]; [intros d Hd; apply H; now right|].
  destruct b; eauto.
Qed.

(** C4, as amended.  For every combination of a non-empty category [C] and of
    supplied bounds [lo], [hi], the filter of [list_products] selects exactly
    the documents with [category == C] and [lo <= price <= hi]: each
    constraint is there on its own account, they are combined by a logical
    and (also with the text condition of [q]), a single bound applies alone,
    and the order of the bounds is not checked.  An absent or empty category
    constrains nothing. *)
Theorem filter_selects_category_and_price (q category : option string)
    (min_price max_price : option Q) (doc : dict) :
  let selected :=
    (forall C, category = Some C -> C <> "" -> doc !! "category" = Some (VStr C)) /\
    (forall lo, min_price = Some lo -> exists p, price_of doc = Some p /\ (lo <= p)%Q) /\
    (forall hi, max_price = Some hi -> exists p, price_of doc = Some p /\ (p <= hi)%Q) in
  (matches (filter_dict q category min_price max_price) doc = Some true <->
   text_ok q doc = Some true /\ selected) /\
  (exists b, matches (filter_dict None category min_price max_price) doc = Some b /\
             (b = true <-> selected)) /\
  (forall docs, exists chosen,
     select (filter_dict None category min_price max_price) docs = Some chosen /\
     forall d, d ∈ chosen <->
       d ∈ docs /\ matches (filter_dict None category min_price max_price) d = Some true).
Proof.
  intros selected.
  assert (Hsel : category_ok category doc &&
                 (ge_bound min_price (price_of doc) && le_bound max_price (price_of doc)) = true
                 <-> selected).
  { unfold selected.
    now rewrite !andb_true_iff, category_ok_spec, ge_bound_spec, le_bound_spec. }
  repeat apply conj.
  - rewrite filter_dict_matches. intros H.
    destruct (text_ok q doc) as [[]|]; cbn in H; try discriminate.
    split; [reflexivity|]. apply Hsel. congruence.
  - intros [Ht Hs]. rewrite filter_dict_matches, Ht. cbn. f_equal. now apply Hsel.
  - rewrite filter_dict_matches. cbn. eexists. split; [reflexivity|]. exact Hsel.
  - intros docs.
    destruct (select_defined (filter_dict None category min_price max_price) docs)
      as [chosen Hc].
    + intros d _. rewrite filter_dict_matches. cbn. eauto.
    + exists chosen. split; [exact Hc|]. now apply select_spec.
Qed.

(** C4, as stated, fails for a category that is supplied as the empty string:
    [if category:] adds no constraint then, so the filter selects the power
    board, whose category is not the empty string. *)
Lemma empty_category_selects_other_categories :
  matches (filter_dict None (Some "") (Some 0%Q) (Some (100 # 1))) power_board = Some true /\
  power_board !! "category" = Some (VStr "electronics") /\
  power_board !! "category" <> Some (VStr "").
Proof.
  split; [vm_compute; reflexivity|].
  split; [vm_compute; reflexivity|].
  intros H. vm_compute in H. discriminate H.
Qed.

(** X3.  For a search term free of regular-expression operators the filter
    does what the specification says: it selects a document exactly when its
    title, or one of its tags, case-insensitively contains the term. *)
Lemma plain_text_search (q : string) (doc : dict) :
  q <> "" -> plain q = true ->
  exists b, matches (filter_dict (Some q) None None None) doc = Some b /\
            (b = true <-> title_contains q doc \/ some_tag_contains q doc).
Proof.
  intros Hne Hq. rewrite filter_dict_matches. unfold text_ok.
  destruct (String.eqb_spec q "") as [->|_]; [congruence|].
  rewrite text_clauses_match, (regex_on_plain q _ Hq), (tags_on_plain q _ Hq).
  cbn. eexists. split; [reflexivity|].
  rewrite andb_true_r, orb_true_iff, contains_in_title, contains_in_tags. reflexivity.
Qed.

(** C3 at the search term ["."]: the term reaches the store as a regular
    expression, where the dot stands for any character, so the filter selects
    the power board although neither its title nor any of its tags contains
    a dot. *)
Theorem wildcard_term_selects_unrelated_product :
  matches (filter_dict (Some ".") None None None) power_board = Some true /\
  ~ title_contains "." power_board /\
  ~ some_tag_contains "." power_board.
Proof.
  split; [vm_compute; reflexivity|]. split.
  - rewrite <- contains_in_title. vm_compute. discriminate.
  - rewrite <- contains_in_tags. vm_compute. discriminate.
Qed.

(** ** Listing products *)

Lemma expose_id_with_id (py_str : value -> string) (p : dict) (oid : value) :
  p !! "_id" = Some oid ->
  expose_id py_str p !! "_id" = None /\
  expose_id py_str p !! "id" = Some (VStr (py_str oid)) /\
  forall key, key <> "_id" -> key <> "id" -> expose_id py_str p !! key = p !! key.
Proof.
  intros H. unfold expose_id. rewrite H. repeat apply conj.
  - rewrite lookup_insert_ne by discriminate. apply lookup_delete_eq.
  - apply lookup_insert_eq.
  - intros key H1 H2. rewrite lookup_insert_ne by congruence.
    apply lookup_delete_ne. congruence.
Qed.

Lemma expose_id_without_id (py_str : value -> string) (p : dict) :
  p !! "_id" = None -> expose_id py_str p = p.
Proof. intros H. unfold expose_id. now rewrite H. Qed.

(** C8, as amended.  [list_products] makes one [get_documents] call and
    returns the documents it got, in order, each changed as follows: a
    document with an [_id] field loses it and carries, under [id], the string
    form of that identifier, every field other than [_id] and [id] being
    returned unchanged; a document without [_id] is returned as it is. *)
Theorem listed_documents_expose_id (py_str : value -> string)
    (q category : option string) (min_price max_price : option Q) (limit : Z) :
  exists k,
    list_products py_str q category min_price max_price limit =
      GetDocuments "product" (filter_dict q category min_price max_price) limit k /\
    forall docs : list dict,
      k (Returned docs) = Ret {[ "items" := VList (VDict <$> (expose_id py_str <$> docs)) ]} /\
      length (expose_id py_str <$> docs) = length docs /\
      forall (i : nat) (p : dict), docs !! i = Some p ->
        (expose_id py_str <$> docs) !! i = Some (expose_id py_str p) /\
        match p !! "_id" with
        | Some oid =>
            expose_id py_str p !! "_id" = None /\
            expose_id py_str p !! "id" = Some (VStr (py_str oid)) /\
            forall key, key <> "_id" -> key <> "id" ->
              expose_id py_str p !! key = p !! key
        | None => expose_id py_str p = p
        end.
Proof.
  eexists. split; [reflexivity|].
  intros docs. split; [reflexivity|]. split; [apply length_fmap|].
  intros i p Hp. split; [now rewrite list_lookup_fmap, Hp|].
  destruct (p !! "_id") as [oid|] eqn:Hid.
  - now apply expose_id_with_id.
  - now apply expose_id_without_id.
Qed.

(** C8, as stated, fails on a stored document that has an [id] field of its
    own, which the listing overwrites, and on a document that comes back
    without [_id], which gets no [id] field: whatever [str] is, the listing of
    [legacy_product] changes its [id] field, and the listing of
    [bare_product] has no [id] field. *)
Lemma listing_overwrites_stored_id :
  (forall py_str : value -> string,
     exists k item,
       list_products py_str None None None None 30 = GetDocuments "product" ∅ 30 k /\
       k (Returned [legacy_product]) = Ret {[ "items" := VList [VDict item] ]} /\
       legacy_product !! "id" = Some (VInt 42) /\
       item !! "id" = Some (VStr (py_str (VOid 7))) /\
       item !! "id" <> legacy_product !! "id") /\
  (forall py_str : value -> string,
     exists k item,
       list_products py_str None None None None 30 = GetDocuments "product" ∅ 30 k /\
       k (Returned [bare_product]) = Ret {[ "items" := VList [VDict item] ]} /\
       item !! "id" = None).
Proof.
  split; intros py_str; eexists; eexists.
  - split; [reflexivity|]. split; [reflexivity|].
    assert (H1 : legacy_product !! "id" = Some (VInt 42)) by reflexivity.
    assert (H2 : expose_id py_str legacy_product !! "id" = Some (VStr (py_str (VOid 7))))
      by (apply (expose_id_with_id py_str legacy_product (VOid 7)); reflexivity).
    split; [exact H1|]. split; [exact H2|]. rewrite H1, H2. discriminate.
  - split; [reflexivity|]. split; [reflexivity|].
    rewrite expose_id_without_id by reflexivity. reflexivity.
Qed.

(** ** Orders *)

(** The stamp overrides what the sender asked for: [card_order] is accepted
    and stored as a cash-on-delivery order in state [received]. *)
Example card_order_is_stored_as_cod :
  exists order_doc k,
    post_orders card_order = CreateDocument "order" order_doc k /\
    order_doc !! "payment_method" = Some (VStr "cod") /\
    order_doc !! "status" = Some (VStr "received") /\
    fst (exec (post_orders card_order) empty_store) =
      Returned (<["order_id" := VStr "000000000000000000000000"]>
                  {[ "status" := VStr "received" ]}).
Proof.
  eexists. eexists. split; [reflexivity|]. repeat apply conj.
  - vm_compute. reflexivity.
  - vm_compute. reflexivity.
  - vm_compute. reflexivity.
Qed.

(** C5.  An order payload whose [items] list is empty is rejected with status
    400 and the fixed message, without any call to the store, whose contents
    are therefore unchanged. *)
Theorem empty_order_is_rejected (payload : OrderPayload) :
  items payload = [] ->
  create_order payload = Raise (HTTPException 400 missing_items) /\
  calls_le 0 (create_order payload) /\
  (forall st, exec (create_order payload) st = (Raised (HTTPException 400 missing_items), st)) /\
  (forall body, validate_OrderPayload ["body"] body = inl payload ->
     post_orders body = Raise (HTTPException 400 missing_items) /\
     forall st, exec (post_orders body) st = (Raised (HTTPException 400 missing_items), st)).
Proof.
  intros Hitems.
  assert (H : create_order payload = Raise (HTTPException 400 missing_items))
    by (unfold create_order; now rewrite Hitems).
  repeat apply conj.
  - exact H.
  - now rewrite H.
  - intros st. now rewrite H.
  - intros body Hv. unfold post_orders. rewrite Hv.
    split; [exact H|]. intros st. now rewrite H.
Qed.

(** The order [empty_order], whose [items] list is empty, on the empty store. *)
Lemma empty_order_is_rejected_witness :
  exists payload,
    validate_OrderPayload ["body"] empty_order = inl payload /\
    items payload = [] /\
    post_orders empty_order = Raise (HTTPException 400 missing_items) /\
    exec (post_orders empty_order) empty_store =
      (Raised (HTTPException 400 missing_items), empty_store).
Proof.
  eexists. split; [vm_compute; reflexivity|]. split; [reflexivity|].
  pose proof (empty_order_is_rejected
    {| items := [];
       customer :=
         {| full_name := "Ada Lovelace"; email := "ada@example.org";
            phone := "+44 20 7946 0000"; address_line1 := "12 St James Square";
            address_line2 := None; city := "London"; state := "London";
            postal_code := "SW1Y 4JH"; country := "GB" |};
       notes := None; subtotal := 999 # 100; shipping := 5 # 1;
       total := 1499 # 100 |} eq_refl) as (_ & _ & _ & Hbody).
  destruct (Hbody empty_order) as [Hpost Hexec]; [vm_compute; reflexivity|].
  split; [exact Hpost|apply Hexec].
Defined.

(** C1 at [malformed_order]: the models [main.py] validates against declare
    [email: str] and [quantity: int], so an order with the address
    ["not-an-email"] and an item in quantity zero passes validation and is
    handed to [create_document]; on the empty store it is stored and
    answered with an order identifier. *)
Theorem malformed_order_reaches_storage :
  exists order_doc k customer item st',
    post_orders malformed_order = CreateDocument "order" order_doc k /\
    order_doc !! "customer" = Some (VDict customer) /\
    customer !! "email" = Some (VStr "not-an-email") /\
    order_doc !! "items" = Some (VList [VDict item]) /\
    item !! "quantity" = Some (VInt 0) /\
    exec (post_orders malformed_order) empty_store =
      (Returned (<["order_id" := VStr "000000000000000000000000"]>
                   {[ "status" := VStr "received" ]}), st') /\
    documents st' "order" = [stored 0 order_doc].
Proof.
  do 5 eexists. split; [reflexivity|]. repeat apply conj.
  - vm_compute. reflexivity.
  - vm_compute. reflexivity.
  - vm_compute. reflexivity.
  - vm_compute. reflexivity.
  - vm_compute. reflexivity.
  - vm_compute. reflexivity.
Qed.

(** The order models of [schemas.py] constrain what [main.py] lets through:
    validated against them, the item of [malformed_order] is refused for its
    quantity and the customer for the e-mail address, whenever the e-mail
    validation refuses the address. *)
Lemma schemas_reject_malformed_order :
  Schemas.validate_OrderItem ["body"; "items"; "0"] (item_json 0) =
    inr (["body"; "items"; "0"; "quantity"], "Input should be greater than or equal to 1") /\
  forall (validate_email : string -> string + string) (reason : string),
    validate_email "not-an-email" = inr reason ->
    Schemas.validate_CustomerInfo validate_email ["body"; "customer"]
      (customer_json "not-an-email") =
      inr (["body"; "customer"; "email"], "value is not a valid email address: " ++ reason).
Proof.
  split; [vm_compute; reflexivity|].
  intros validate_email reason H. unfold Schemas.validate_CustomerInfo, customer_json.
  cbn [as_dict vbind]. unfold str_field, required.
  rewrite lookup_insert_eq. cbn [vbind as_str].
  rewrite lookup_insert_ne by discriminate. rewrite lookup_insert_eq.
  cbn [vbind as_str]. rewrite H. reflexivity.
Qed.

(** ** Seeding *)

Lemma select_all (docs : list dict) : select ∅ docs = Some docs.
Proof.
  induction docs as [|d docs IH]; cbn [select]; [reflexivity|].
  now rewrite matches_empty, IH.
Qed.

Lemma documents_with_faults st rest c :
  documents (with_faults st rest) c = documents st c.
Proof. reflexivity. Qed.

Lemma documents_after_insert collection data st :
  documents (after_insert collection data st) collection =
  (documents st collection ++ [stored (next_id st) data])%list.
Proof. unfold documents at 1, after_insert. cbn [collections]. now rewrite lookup_insert_eq. Qed.

Lemma documents_after_insert_ne collection data st c :
  c <> collection ->
  documents (after_insert collection data st) c = documents st c.
Proof.
  intros H. unfold documents, after_insert. cbn [collections].
  now rewrite lookup_insert_ne by congruence.
Qed.

(** What the seed operation does, whatever the store: one [get_documents]
    call on the product collection with the empty filter and limit 1; if it
    returns a document, nothing else; if it returns none, one
    [create_document] call per sample, in order, and the count 3 when all
    three have returned. *)
Lemma seed_sample_products_steps :
  exists k,
    seed_sample_products = GetDocuments "product" ∅ 1 k /\
    (forall d docs,
       k (Returned (d :: docs)) =
         Ret (<["inserted" := VInt 0]> {[ "message" := VStr "Products already exist" ]})) /\
    (forall e, k (Raised e) = Raise (HTTPException 500 (str_exn e))) /\
    exists k1,
      k (Returned []) = CreateDocument "product" servo_mount k1 /\
      forall id1, exists k2,
        k1 (Returned id1) = CreateDocument "product" control_panel_plate k2 /\
        forall id2, exists k3,
          k2 (Returned id2) = CreateDocument "product" power_board k3 /\
          forall id3, k3 (Returned id3) = Ret {[ "inserted" := VInt 3 ]}.
Proof.
  eexists. split; [reflexivity|]. split; [reflexivity|]. split; [reflexivity|].
  eexists. split; [reflexivity|]. intros id1.
  eexists. split; [reflexivity|]. intros id2.
  eexists. split; [reflexivity|]. intros id3. reflexivity.
Qed.

(** C6.  On a store that answers its calls: when the product collection is
    empty the seed operation inserts exactly three documents, one in each of
    the categories [3d-printed], [laser-engraved] and [electronics], and
    reports [inserted == 3]; when the collection holds at least one document
    it inserts nothing and reports [inserted == 0] with the message that
    products already exist. *)
Theorem seed_inserts_three_or_nothing (st : Store) :
  healthy st ->
  (documents st "product" = [] ->
   exists st',
     exec seed_sample_products st = (Returned {[ "inserted" := VInt 3 ]}, st') /\
     documents st' "product" =
       [ stored (next_id st) servo_mount;
         stored (N.succ (next_id st)) control_panel_plate;
         stored (N.succ (N.succ (next_id st))) power_board ] /\
     (fun d : dict => d !! "category") <$> documents st' "product" =
       [ Some (VStr "3d-printed"); Some (VStr "laser-engraved"); Some (VStr "electronics") ] /\
     forall c, c <> "product" -> documents st' c = documents st c) /\
  (documents st "product" <> [] ->
   exec seed_sample_products st =
     (Returned (<["inserted" := VInt 0]> {[ "message" := VStr "Products already exist" ]}),
      st)).
Proof.
  unfold healthy. destruct st as [colls nid fs]. cbn [faults]. intros ->. split.
  - intros Hempty. run_store. rewrite Hempty. run_store.
    eexists. split; [reflexivity|].
    set (st0 := {| collections := colls; next_id := nid; faults := [] |}) in *.
    assert (H3 : documents (after_insert "product" power_board
                    (after_insert "product" control_panel_plate
                       (after_insert "product" servo_mount st0))) "product" =
                 [ stored nid servo_mount; stored (N.succ nid) control_panel_plate;
                   stored (N.succ (N.succ nid)) power_board ]).
    { rewrite !documents_after_insert, Hempty. reflexivity. }
    split; [exact H3|]. split.
    + rewrite H3. reflexivity.
    + intros c Hc. now rewrite !documents_after_insert_ne.
  - intros Hne. run_store. rewrite select_all.
    destruct (documents _ "product") as [|d docs] eqn:Hd; [congruence|].
    reflexivity.
Qed.


(** The seed on the empty store, and once more on the store it leaves. *)
Lemma seed_inserts_three_or_nothing_witness :
  healthy empty_store /\
  documents empty_store "product" = [] /\
  exists st',
    exec seed_sample_products empty_store = (Returned {[ "inserted" := VInt 3 ]}, st') /\
    (fun d : dict => d !! "category") <$> documents st' "product" =
      [ Some (VStr "3d-printed"); Some (VStr "laser-engraved"); Some (VStr "electronics") ] /\
    exec seed_sample_products st' =
      (Returned (<["inserted" := VInt 0]> {[ "message" := VStr "Products already exist" ]}),
       st').
Proof.
  split; [reflexivity|]. split; [reflexivity|].
  destruct (seed_inserts_three_or_nothing empty_store eq_refl) as [Hempty _].
  destruct (Hempty eq_refl) as (st' & Hrun & Hdocs & Hcats & _).
  exists st'. split; [exact Hrun|]. split; [exact Hcats|].
  assert (Hst' : st' = snd (exec seed_sample_products empty_store)) by now rewrite Hrun.
  assert (Hhealthy : healthy st') by (rewrite Hst'; reflexivity).
  destruct (seed_inserts_three_or_nothing st' Hhealthy) as [_ Hfull].
  apply Hfull. rewrite Hdocs. discriminate.
Defined.

(** ** Calls to the store per request *)

Lemma list_products_calls py_str q category min_price max_price limit :
  calls_le 1 (list_products py_str q category min_price max_price limit).
Proof. unfold list_products. run_handler. intros [docs|e]; exact I. Qed.

Lemma create_order_calls payload : calls_le 1 (create_order payload).
Proof.
  unfold create_order. destruct (items payload); [exact I|].
  run_handler. intros [order_id|e]; exact I.
Qed.

Lemma test_database_calls db getenv : calls_le 1 (test_database db getenv).
Proof.
  unfold test_database. destruct db; [|exact I].
  run_handler. intros [names|e]; exact I.
Qed.

Lemma seed_sample_products_calls : calls_le 4 seed_sample_products.
Proof.
  unfold seed_sample_products. run_handler.
  intros [[|d docs]|e]; run_handler; [|exact I|exact I].
  intros [id1|e1]; run_handler; [|exact I].
  intros [id2|e2]; run_handler; [|exact I].
  intros [id3|e3]; exact I.
Qed.

(** C7, as amended.  [read_root] makes no call to the store; [test_database],
    [list_products] and [create_order] make at most one call per request.
    The seed operation makes one [get_documents] call and, when it returns no
    document, three separate [create_document] calls: at most four calls, and
    more than three on some runs.  An insertion that fails does not undo the
    earlier ones: when the find and the first insertion succeed and the
    second insertion fails, the request fails with status 500 and the
    product collection is left with the first sample alone. *)
Theorem store_calls_per_request :
  calls_le 0 read_root /\
  (forall db getenv, calls_le 1 (test_database db getenv)) /\
  (forall py_str q category min_price max_price limit,
     calls_le 1 (list_products py_str q category min_price max_price limit)) /\
  (forall payload, calls_le 1 (create_order payload)) /\
  (forall body, calls_le 1 (post_orders body)) /\
  calls_le 4 seed_sample_products /\
  ~ calls_le 3 seed_sample_products /\
  (forall (st : Store) (msg : string),
     documents st "product" = [] ->
     faults st = [None; None; Some msg] ->
     exists st',
       exec seed_sample_products st = (Raised (HTTPException 500 msg), st') /\
       documents st' "product" = [stored (next_id st) servo_mount]).
Proof.
  repeat apply conj.
  - exact I.
  - apply test_database_calls.
  - apply list_products_calls.
  - apply create_order_calls.
  - intros body. unfold post_orders.
    destruct (validate_OrderPayload ["body"] body) as [payload|[loc msg]];
      [apply create_order_calls|exact I].
  - apply seed_sample_products_calls.
  - intros H. exact (H (Returned []) (Returned "") (Returned "")).
  - intros st msg Hempty Hfaults. destruct st as [colls nid fs].
    cbn [faults] in Hfaults. subst fs. run_store.
    rewrite documents_with_faults, Hempty. run_store.
    eexists. split; [reflexivity|].
    rewrite ?documents_with_faults, documents_after_insert, ?documents_with_faults, Hempty.
    reflexivity.
Qed.

(** C7, as stated, fails for the seed operation: it makes more than one call
    to the store, and on [failing_store], whose third call fails, it raises
    status 500 after the first sample has been inserted, which stays in the
    store. *)
Lemma seed_leaves_partial_state :
  ~ calls_le 1 seed_sample_products /\
  documents failing_store "product" = [] /\
  exists st',
    exec seed_sample_products failing_store =
      (Raised (HTTPException 500 "connection reset"), st') /\
    documents st' "product" = [stored 0 servo_mount].
Proof.
  split.
  - intros H. exact (H (Returned [])).
  - split; [reflexivity|]. eexists. split; vm_compute; reflexivity.
Qed.

(** ** The diagnostic endpoint *)

Lemma substring_prefix_length (n : nat) (s : string) :
  (String.length (substring 0 n s) <= n)%nat /\
  exists rest, s = substring 0 n s ++ rest.
Proof.
  revert s. induction n as [|n IH]; intros s.
  - destruct s; cbn; split; try lia; eauto.
  - destruct s as [|c s]; cbn.
    + split; [lia|]. exists "". reflexivity.
    + destruct (IH s) as [Hlen [rest Hrest]]. split; [lia|].
      exists rest. change (String c s = String c (substring 0 n s ++ rest)).
      f_equal. exact Hrest.
Qed.

(** C10.  [test_database] never raises: whether the store handle is missing,
    the listing of the collections fails or it succeeds, the handler returns
    a response body.  A missing handle and a failing listing are reported in
    the [database] field of the body, the text of the error cut to its first
    80 characters, and the [collections] field holds at most 10 names. *)
Theorem test_database_always_answers (getenv : string -> option string) :
  (forall db,
     always_returns
       (fun body => exists names,
          body !! "collections" = Some (VList (VStr <$> names)) /\
          (length names <= 10)%nat)
       (test_database db getenv)) /\
  (exists body,
     test_database None getenv = Ret body /\
     body !! "database" = Some (VStr "❌ Database not initialized") /\
     body !! "connection_status" = Some (VStr "Not Connected") /\
     body !! "collections" = Some (VList [])) /\
  (exists k,
     test_database (Some ()) getenv = ListCollectionNames k /\
     (forall names, exists body,
        k (Returned names) = Ret body /\
        body !! "database" = Some (VStr "✅ Connected & Working") /\
        body !! "connection_status" = Some (VStr "Connected") /\
        body !! "collections" = Some (VList (VStr <$> take 10 names))) /\
     (forall e, exists body,
        k (Raised e) = Ret body /\
        body !! "database" =
          Some (VStr ("⚠️ Connected but Error: " ++ substring 0 80 (str_exn e))) /\
        (String.length (substring 0 80 (str_exn e)) <= 80)%nat /\
        (exists rest, str_exn e = substring 0 80 (str_exn e) ++ rest) /\
        body !! "connection_status" = Some (VStr "Not Connected") /\
        body !! "collections" = Some (VList []))).
Proof.
  repeat apply conj.
  - intros [[]|]; unfold test_database; run_handler.
    + intros [names|e]; run_handler.
      * exists (take 10 names). split; [by simplify_map_eq|].
        rewrite length_take. lia.
      * exists []. split; [by simplify_map_eq|]. cbn. lia.
    + exists []. split; [by simplify_map_eq|]. cbn. lia.
  - eexists. split; [reflexivity|]. repeat apply conj; by simplify_map_eq.
  - eexists. split; [reflexivity|]. split.
    + intros names. eexists. split; [reflexivity|].
      repeat apply conj; by simplify_map_eq.
    + intros e. eexists. split; [reflexivity|].
      destruct (substring_prefix_length 80 (str_exn e)) as [Hlen Hrest].
      repeat apply conj; try assumption; by simplify_map_eq.
Qed.

(** * Further properties *)

(** ** The filter *)

(** X1.  The filter of [list_products] is the empty dictionary exactly when
    [q] and [category] are absent or empty and no price bound is supplied, and
    it never holds a key other than [category], [price] and [$or]. *)
Theorem filter_dict_empty_iff (q category : option string)
    (min_price max_price : option Q) :
  (filter_dict q category min_price max_price = ∅ <->
   truthy q = false /\ truthy category = false /\
   min_price = None /\ max_price = None) /\
  (forall key, key <> "category" -> key <> "price" -> key <> "$or" ->
     filter_dict q category min_price max_price !! key = None).
Proof.
  split; [split|].
  - intros H.
    assert (Hor := filter_dict_lookup_or q category min_price max_price).
    assert (Hcat := filter_dict_lookup_category q category min_price max_price).
    assert (Hprice := filter_dict_lookup_price q category min_price max_price).
    rewrite H, lookup_empty in Hor, Hcat, Hprice.
    repeat apply conj.
    + destruct q as [text|]; [|reflexivity]. now destruct (truthy (Some text)).
    + destruct category as [c|]; [|reflexivity]. now destruct (truthy (Some c)).
    + now destruct min_price.
    + now destruct min_price, max_price.
  - intros (Hq & Hc & -> & ->). unfold filter_dict.
    destruct q as [text|]; rewrite ?Hq; (destruct category as [c|]; rewrite ?Hc);
      reflexivity.
  - intros key H1 H2 H3. unfold filter_dict.
    destruct q as [text|]; [destruct (truthy (Some text))|];
      (destruct category as [c|]; [destruct (truthy (Some c))|]);
      destruct (is_not_None min_price || is_not_None max_price);
      rewrite ?lookup_insert_ne by congruence; apply lookup_empty.
Qed.

(** X2.  The order of the price bounds is not checked: whatever [q] and
    [category] are, the filter holds the price condition with both bounds as
    supplied, and when the upper bound is below the lower bound no document
    satisfies that condition.  So on every document for which the text
    condition of [q] has an answer in the model, as it has when [q] is absent,
    empty or free of regular-expression operators, the filter answers no,
    and the selection from such documents is empty. *)
Theorem inverted_bounds_select_nothing (q category : option string) (lo hi : Q) :
  (hi < lo)%Q ->
  filter_dict q category (Some lo) (Some hi) !! "price" =
    Some (VDict (price_filter (Some lo) (Some hi))) /\
  (forall doc,
     match_condition doc "price" (VDict (price_filter (Some lo) (Some hi))) = Some false) /\
  (forall doc, is_Some (text_ok q doc) ->
     matches (filter_dict q category (Some lo) (Some hi)) doc = Some false) /\
  (forall docs, (forall doc, doc ∈ docs -> is_Some (text_ok q doc)) ->
     select (filter_dict q category (Some lo) (Some hi)) docs = Some []) /\
  (forall doc, truthy q = false \/ (exists text, q = Some text /\ plain text = true) ->
     is_Some (text_ok q doc)).
Proof.
  intros Hlt.
  assert (Hprice : forall x : option Q,
            ge_bound (Some lo) x && le_bound (Some hi) x = false).
  { intros [p|]; cbn; [|reflexivity].
    destruct (Qle_bool lo p) eqn:Hge; [|reflexivity].
    destruct (Qle_bool p hi) eqn:Hle; [|reflexivity].
    apply Qle_bool_iff in Hge, Hle. exfalso.
    apply (Qlt_irrefl lo). eapply Qle_lt_trans; [|exact Hlt].
    eapply Qle_trans; eassumption. }
  assert (Hno : forall doc, is_Some (text_ok q doc) ->
            matches (filter_dict q category (Some lo) (Some hi)) doc = Some false).
  { intros doc [b Hb]. rewrite filter_dict_matches, Hb, Hprice. cbn.
    now rewrite !andb_false_r. }
  repeat apply conj.
  - rewrite filter_dict_lookup_price. reflexivity.
  - intros doc.
    change (match_operators (price_filter (Some lo) (Some hi))
              (default VNone (doc !! "price")) = Some false).
    now rewrite price_filter_matches, Hprice.
  - exact Hno.
  - intros docs Hdocs. induction docs as [|d docs IH]; [reflexivity|].
    cbn [select]. rewrite (Hno d) by (apply Hdocs; left).
    rewrite IH by (intros doc Hdoc; apply Hdocs; now right). reflexivity.
  - intros doc [Hq|(text & -> & Hplain)]; unfold text_ok.
    + destruct q as [text|]; [|eauto]. unfold truthy in Hq.
      apply negb_false_iff in Hq. rewrite Hq. eauto.
    + destruct (String.eqb text ""); [eauto|].
      rewrite text_clauses_match, (regex_on_plain text _ Hplain),
        (tags_on_plain text _ Hplain). cbn. eauto.
Qed.

(** The bounds [10, 5] with the term [servo], on the three samples. *)
Lemma inverted_bounds_select_nothing_witness :
  (5 # 1 < 10 # 1)%Q /\
  matches (filter_dict (Some "servo") None (Some (10 # 1)) (Some (5 # 1))) servo_mount =
    Some false /\
  select (filter_dict (Some "servo") None (Some (10 # 1)) (Some (5 # 1))) samples = Some [].
Proof.
  split; [reflexivity|].
  destruct (inverted_bounds_select_nothing (Some "servo") None (10 # 1) (5 # 1) eq_refl)
    as (_ & _ & Hdoc & Hsel & Htext).
  assert (Hdefined : forall doc, is_Some (text_ok (Some "servo") doc)).
  { intros doc. apply Htext. right. exists "servo". split; reflexivity. }
  split; [apply Hdoc, Hdefined|]. apply Hsel. intros doc _. apply Hdefined.
Defined.

(** The text search on the term [SERVO] and the servo mount. *)
Lemma plain_text_search_witness :
  "SERVO" <> "" /\ plain "SERVO" = true /\
  exists b, matches (filter_dict (Some "SERVO") None None None) servo_mount = Some b /\
            (b = true <-> title_contains "SERVO" servo_mount \/
                          some_tag_contains "SERVO" servo_mount).
Proof.
  split; [discriminate|]. split; [reflexivity|].
  apply plain_text_search; [discriminate|reflexivity].
Defined.

(** Letters outside ASCII are folded as well: the term with the capital of
    code 201 finds the title with the small letter of code 233. *)
Example accented_term_is_folded :
  plain ("CAF" ++ String (ascii_of_nat 201) "") = true /\
  matches (filter_dict (Some ("CAF" ++ String (ascii_of_nat 201) "")) None None None)
    {[ "title" := VStr ("Grand caf" ++ String (ascii_of_nat 233) "") ]} = Some true.
Proof. split; vm_compute; reflexivity. Qed.

(** ** Listing *)

(** X4.  No document of a listing has an [_id] field, whatever the store
    returned, and exposing the identifiers of a listing once more changes
    nothing. *)
Theorem listed_documents_have_no_store_id (py_str : value -> string)
    (docs : list dict) :
  (forall item, item ∈ expose_id py_str <$> docs -> item !! "_id" = None) /\
  expose_id py_str <$> (expose_id py_str <$> docs) = expose_id py_str <$> docs.
Proof.
  assert (Hno : forall p, expose_id py_str p !! "_id" = None).
  { intros p. destruct (p !! "_id") as [oid|] eqn:Hid.
    - now apply (expose_id_with_id py_str p oid).
    - now rewrite expose_id_without_id. }
  split.
  - intros item Hin. apply list_elem_of_fmap in Hin as (p & -> & _). apply Hno.
  - rewrite <- list_fmap_compose. apply list_fmap_ext. intros i p _. cbn.
    now apply expose_id_without_id.
Qed.

(** ** Errors *)

(** X5.  What the client gets from the three handlers that use the store, run
    by run.  [list_products] makes one call: when it returns documents the
    response is the body with the single field [items] holding them with
    their identifiers exposed, and when it raises the request fails with
    status 500 and the text of that very exception as detail.
    [seed_sample_products] answers that products already exist when the find
    returns a document, reports 3 insertions when the find returns none and
    the three insertions return, and fails with status 500 and the text of
    the exception as soon as one of its calls raises; it reports no other
    count.  [create_order] fails with status 400 and the fixed message,
    without any call, exactly when the order has no item; otherwise it makes
    one call and returns the identifier that call returned, under
    [order_id], or fails with status 500 and the text of the exception that
    call raised. *)
Theorem handlers_raise_only_http_errors :
  (forall py_str q category min_price max_price limit,
     outcomes_with
       (fun history o =>
          match history with
          | [GotDocuments (Returned docs)] =>
              o = Returned {[ "items" := VList (VDict <$> (expose_id py_str <$> docs)) ]}
          | [GotDocuments (Raised e)] => o = Raised (HTTPException 500 (str_exn e))
          | _ => False
          end)
       [] (list_products py_str q category min_price max_price limit)) /\
  outcomes_with
    (fun history o =>
       match history with
       | [GotDocuments (Raised e)] => o = Raised (HTTPException 500 (str_exn e))
       | [GotDocuments (Returned (_ :: _))] => o = Returned already_seeded
       | [GotDocuments (Returned []); GotId (Raised e)] =>
           o = Raised (HTTPException 500 (str_exn e))
       | [GotDocuments (Returned []); GotId (Returned _); GotId (Raised e)] =>
           o = Raised (HTTPException 500 (str_exn e))
       | [GotDocuments (Returned []); GotId (Returned _); GotId (Returned _);
          GotId (Raised e)] =>
           o = Raised (HTTPException 500 (str_exn e))
       | [GotDocuments (Returned []); GotId (Returned _); GotId (Returned _);
          GotId (Returned _)] =>
           o = Returned {[ "inserted" := VInt 3 ]}
       | _ => False
       end)
    [] seed_sample_products /\
  (forall payload,
     outcomes_with
       (fun history o =>
          match history with
          | [] => items payload = [] /\ o = Raised (HTTPException 400 missing_items)
          | [GotId (Returned order_id)] =>
              items payload <> [] /\
              o = Returned (<["order_id" := VStr order_id]>
                              {[ "status" := VStr "received" ]})
          | [GotId (Raised e)] =>
              items payload <> [] /\ o = Raised (HTTPException 500 (str_exn e))
          | _ => False
          end)
       [] (create_order payload)).
Proof.
  repeat apply conj.
  - intros. unfold list_products.
    cbn [outcomes_with try_except bind resume get_documents app].
    intros [docs|e]; reflexivity.
  - unfold seed_sample_products.
    cbn [outcomes_with try_except bind resume get_documents app].
    intros [[|d docs]|e];
      cbn [outcomes_with try_except bind resume create_document insert_samples samples app];
      try reflexivity.
    intros [id1|e1]; cbn [outcomes_with try_except bind resume app]; [|reflexivity].
    intros [id2|e2]; cbn [outcomes_with try_except bind resume app]; [|reflexivity].
    intros [id3|e3]; cbn [outcomes_with try_except bind resume app]; reflexivity.
  - intros payload. unfold create_order. destruct (items payload) as [|it its] eqn:Hitems.
    + split; reflexivity.
    + cbn [outcomes_with try_except bind resume create_document app].
      intros [order_id|e]; cbn [outcomes_with try_except bind resume];
        (split; [discriminate|reflexivity]).
Qed.

(** ** The diagnostic endpoint and the environment *)

(** X6.  In every response of [test_database] the field [backend] says
    running, and the fields [database_url] and [database_name] say set exactly
    when the store handle exists and the environment variable is set to a
    non-empty text: without a handle both say not set even if the variables
    are set, and with a handle they do not depend on whether the listing of
    the collections succeeds. *)
Theorem test_database_reports_configuration (db : option unit)
    (getenv : string -> option string) :
  always_returns
    (fun body =>
       body !! "backend" = Some (VStr "✅ Running") /\
       body !! "database_url" =
         Some (VStr (if is_not_None db && truthy (getenv "DATABASE_URL")
                     then "✅ Set" else "❌ Not Set")) /\
       body !! "database_name" =
         Some (VStr (if is_not_None db && truthy (getenv "DATABASE_NAME")
                     then "✅ Set" else "❌ Not Set")))
    (test_database db getenv).
Proof.
  unfold test_database. destruct db as [[]|]; run_handler.
  - intros [names|e]; run_handler; cbn [is_not_None andb];
      repeat apply conj; by simplify_map_eq.
  - cbn [is_not_None andb]. repeat apply conj; by simplify_map_eq.
Qed.

(** ** Running handlers step by step *)

Lemma exec_bind {A B : Type} (p : prog A) (f : A -> prog B) (st : Store) :
  exec (bind p f) st =
  match exec p st with
  | (Returned a, st') => exec (f a) st'
  | (Raised e, st') => (Raised e, st')
  end.
Proof.
  revert st. induction p as [a|e|c fl l k IH|c d k IH|k IH]; intros st;
    cbn [bind exec]; try reflexivity.
  - destruct (store_find c fl l st) as [o st']. apply IH.
  - destruct (store_insert c d st) as [o st']. apply IH.
  - destruct (store_list_collections st) as [o st']. apply IH.
Qed.

Lemma exec_try_except {A : Type} (p : prog A) (h : exn -> prog A) (st : Store) :
  exec (try_except p h) st =
  match exec p st with
  | (Returned a, st') => (Returned a, st')
  | (Raised e, st') => exec (h e) st'
  end.
Proof.
  revert st. induction p as [a|e|c fl l k IH|c d k IH|k IH]; intros st;
    cbn [try_except exec]; try reflexivity.
  - destruct (store_find c fl l st) as [o st']. apply IH.
  - destruct (store_insert c d st) as [o st']. apply IH.
  - destruct (store_list_collections st) as [o st']. apply IH.
Qed.

Lemma next_fault_healthy st : healthy st -> next_fault st = (None, st).
Proof. unfold healthy, next_fault. now intros ->. Qed.

Lemma next_fault_cons st fault rest :
  faults st = fault :: rest -> next_fault st = (fault, with_faults st rest).
Proof. unfold next_fault. now intros ->. Qed.

Lemma exec_create_document collection data st :
  exec (create_document collection data) st = store_insert collection data st.
Proof.
  unfold create_document. cbn [exec].
  destruct (store_insert collection data st) as [[id|e] st']; reflexivity.
Qed.

Lemma exec_get_documents collection filter limit st :
  exec (get_documents collection filter limit) st = store_find collection filter limit st.
Proof.
  unfold get_documents. cbn [exec].
  destruct (store_find collection filter limit st) as [[docs|e] st']; reflexivity.
Qed.

Lemma stored_from_app oid l1 l2 :
  stored_from oid (l1 ++ l2) =
  (stored_from oid l1 ++ stored_from (oid + N.of_nat (length l1)) l2)%list.
Proof.
  revert oid. induction l1 as [|d l1 IH]; intros oid; cbn [stored_from app length].
  - now rewrite N.add_0_r.
  - rewrite IH. cbn [app]. do 3 f_equal. lia.
Qed.

Lemma exec_insert_samples_healthy (l : list dict) (n : Z) (st : Store) :
  healthy st ->
  exists st',
    exec (insert_samples l n) st = (Returned (n + Z.of_nat (length l)), st') /\
    documents st' "product" = (documents st "product" ++ stored_from (next_id st) l)%list /\
    (forall c, c <> "product" -> documents st' c = documents st c) /\
    next_id st' = (next_id st + N.of_nat (length l))%N /\
    healthy st'.
Proof.
  revert n st. induction l as [|d l IH]; intros n st Hst.
  - exists st. cbn [insert_samples exec length stored_from].
    rewrite Z.add_0_r, app_nil_r, N.add_0_r. auto.
  - cbn [insert_samples]. rewrite exec_bind, exec_create_document.
    unfold store_insert. rewrite (next_fault_healthy st Hst).
    destruct (IH (n + 1) (after_insert "product" d st)) as (st' & Hrun & Hdocs & Hother & Hid & Hh).
    { exact Hst. }
    exists st'. rewrite Hrun. repeat apply conj.
    + f_equal. f_equal. cbn [length]. lia.
    + rewrite Hdocs, documents_after_insert. cbn [stored_from next_id after_insert].
      now rewrite <- app_assoc.
    + intros c Hc. rewrite (Hother c Hc). now apply documents_after_insert_ne.
    + rewrite Hid. cbn [next_id after_insert length]. lia.
    + exact Hh.
Qed.

Lemma exec_insert_samples_fault (l : list dict) (n : Z) (st : Store)
    (i : nat) (msg : string) (rest : list (option string)) :
  (i < length l)%nat ->
  faults st = (replicate i None ++ Some msg :: rest)%list ->
  exists st',
    exec (insert_samples l n) st = (Raised (Exception msg), st') /\
    documents st' "product" =
      (documents st "product" ++ stored_from (next_id st) (take i l))%list /\
    (forall c, c <> "product" -> documents st' c = documents st c) /\
    faults st' = rest.
Proof.
  revert n st i. induction l as [|d l IH]; intros n st i Hi Hf; [cbn in Hi; lia|].
  cbn [insert_samples]. rewrite exec_bind, exec_create_document. unfold store_insert.
  destruct i as [|i]; cbn [replicate app] in Hf; rewrite (next_fault_cons _ _ _ Hf).
  - eexists. split; [reflexivity|]. cbn [take stored_from]. rewrite app_nil_r.
    repeat apply conj; reflexivity.
  - destruct (IH (n + 1) (after_insert "product" d (with_faults st (replicate i None ++ Some msg :: rest)%list)) i)
      as (st' & Hrun & Hdocs & Hother & Hrest).
    { cbn [length] in Hi. lia. }
    { reflexivity. }
    exists st'. rewrite Hrun. repeat apply conj.
    + reflexivity.
    + rewrite Hdocs, documents_after_insert, documents_with_faults.
      cbn [take stored_from next_id after_insert with_faults]. now rewrite <- app_assoc.
    + intros c Hc. rewrite (Hother c Hc), documents_after_insert_ne by exact Hc.
      apply documents_with_faults.
    + exact Hrest.
Qed.

Lemma store_find_all collection limit st :
  healthy st ->
  store_find collection ∅ limit st = (Returned (at_most limit (documents st collection)), st).
Proof.
  intros Hst. unfold store_find. rewrite (next_fault_healthy st Hst).
  now rewrite select_all.
Qed.

Lemma exec_seed st :
  exec seed_sample_products st =
  match store_find "product" ∅ 1 st with
  | (Returned [], st') =>
      match exec (insert_samples samples 0) st' with
      | (Returned inserted, st'') => (Returned {[ "inserted" := VInt inserted ]}, st'')
      | (Raised e, st'') => (Raised (HTTPException 500 (str_exn e)), st'')
      end
  | (Returned (_ :: _), st') => (Returned already_seeded, st')
  | (Raised e, st') => (Raised (HTTPException 500 (str_exn e)), st')
  end.
Proof.
  unfold seed_sample_products. rewrite exec_try_except, exec_bind, exec_get_documents.
  destruct (store_find "product" ∅ 1 st) as [[[|d docs]|e] st']; try reflexivity.
  rewrite exec_bind.
  destruct (exec (insert_samples samples 0) st') as [[inserted|e] st'']; reflexivity.
Qed.

Lemma exec_seed_nonempty st :
  healthy st -> documents st "product" <> [] ->
  exec seed_sample_products st = (Returned already_seeded, st).
Proof.
  intros Hst Hne. rewrite exec_seed, (store_find_all _ _ _ Hst).
  destruct (documents st "product") as [|d docs]; [congruence|]. reflexivity.
Qed.

Lemma exec_seed_empty st :
  healthy st -> documents st "product" = [] ->
  exists st',
    exec seed_sample_products st = (Returned {[ "inserted" := VInt 3 ]}, st') /\
    documents st' "product" = stored_from (next_id st) samples /\
    (forall c, c <> "product" -> documents st' c = documents st c) /\
    healthy st'.
Proof.
  intros Hst Hempty. rewrite exec_seed, (store_find_all _ _ _ Hst), Hempty.
  cbn [at_most Z.eqb take].
  destruct (exec_insert_samples_healthy samples 0 st Hst)
    as (st' & Hrun & Hdocs & Hother & _ & Hh).
  exists st'. rewrite Hrun, Hdocs, Hempty. repeat apply conj; auto.
Qed.

(** X9.  On a store that answers its calls the seed operation is idempotent:
    after one run, which succeeds, the product collection is not empty, the
    other collections are as before, and a further run reports that products
    already exist and leaves the store as it is. *)
Theorem seed_is_idempotent (st : Store) :
  healthy st ->
  exists body st1,
    exec seed_sample_products st = (Returned body, st1) /\
    documents st1 "product" <> [] /\
    (forall c, c <> "product" -> documents st1 c = documents st c) /\
    exec seed_sample_products st1 = (Returned already_seeded, st1).
Proof.
  intros Hst. destruct (documents st "product") as [|d docs] eqn:Hdocs.
  - destruct (exec_seed_empty st Hst Hdocs) as (st1 & Hrun & Hp & Hother & Hh).
    exists {[ "inserted" := VInt 3 ]}, st1.
    assert (Hne : documents st1 "product" <> []) by (rewrite Hp; discriminate).
    repeat apply conj; auto. now apply exec_seed_nonempty.
  - assert (Hne : documents st "product" <> []) by (rewrite Hdocs; discriminate).
    exists already_seeded, st. repeat apply conj; auto; now apply exec_seed_nonempty.
Qed.

(** X10.  A seed that fails part-way is not repaired by running it again: when
    the find and the first [i] insertions succeed (one or two of them) and
    the next insertion fails, the request fails with status 500, the product
    collection is left with the first [i] samples, and every later run on the
    store, which now answers, reports that products already exist and adds
    nothing. *)
Theorem failed_seed_is_not_repaired (st : Store) (i : nat) (msg : string) :
  documents st "product" = [] ->
  (1 <= i < 3)%nat ->
  faults st = (None :: replicate i None ++ [Some msg])%list ->
  exists st',
    exec seed_sample_products st = (Raised (HTTPException 500 msg), st') /\
    documents st' "product" = stored_from (next_id st) (take i samples) /\
    length (documents st' "product") = i /\
    exec seed_sample_products st' = (Returned already_seeded, st').
Proof.
  intros Hempty Hi Hf. rewrite exec_seed. unfold store_find.
  rewrite (next_fault_cons _ _ _ Hf), select_all, documents_with_faults, Hempty.
  cbn [at_most Z.eqb take].
  destruct (exec_insert_samples_fault samples 0
              (with_faults st (replicate i None ++ [Some msg])%list) i msg [])
    as (st' & Hrun & Hdocs & _ & Hrest).
  { cbn. lia. }
  { reflexivity. }
  rewrite documents_with_faults, Hempty in Hdocs. cbn [app next_id with_faults] in Hdocs.
  exists st'. rewrite Hrun. repeat apply conj.
  - reflexivity.
  - exact Hdocs.
  - rewrite Hdocs. destruct Hi as [H1 H3].
    destruct i as [|[|[|i]]]; try lia; reflexivity.
  - apply exec_seed_nonempty; [exact Hrest|].
    rewrite Hdocs. destruct i as [|i]; [lia|]. discriminate.
Qed.










(** X8.  The insertion loop stops at the first insertion that fails: when the
    first [i] insertions succeed and the next one fails, the loop raises the
    store's exception, the first [i] samples stay in the product collection,
    and no further call is made to the store. *)
Theorem insert_samples_stops_at_first_failure (l : list dict) (n : Z) (st : Store)
    (i : nat) (msg : string) (rest : list (option string)) :
  (i < length l)%nat ->
  faults st = (replicate i None ++ Some msg :: rest)%list ->
  exists st',
    exec (insert_samples l n) st = (Raised (Exception msg), st') /\
    documents st' "product" =
      (documents st "product" ++ stored_from (next_id st) (take i l))%list /\
    (forall c, c <> "product" -> documents st' c = documents st c) /\
    faults st' = rest.
Proof. apply exec_insert_samples_fault. Qed.

(** Three samples on a store whose second insertion fails. *)
Lemma insert_samples_stops_at_first_failure_witness :
  (1 < length samples)%nat /\
  exists st',
    exec (insert_samples samples 0)
         {| collections := ∅; next_id := 0; faults := [None; Some "disk full"; None] |} =
      (Raised (Exception "disk full"), st') /\
    documents st' "product" = [stored 0 servo_mount] /\
    faults st' = [None].
Proof.
  split; [cbn; lia|].
  destruct (insert_samples_stops_at_first_failure samples 0
              {| collections := ∅; next_id := 0; faults := [None; Some "disk full"; None] |}
              1 "disk full" [None])
    as (st' & Hrun & Hdocs & _ & Hrest); [cbn; lia|reflexivity|].
  exists st'. split; [exact Hrun|]. split; [exact Hdocs|exact Hrest].
Defined.

(** The seed on the empty store. *)
Lemma seed_is_idempotent_witness :
  healthy empty_store /\
  exists body st1,
    exec seed_sample_products empty_store = (Returned body, st1) /\
    documents st1 "product" <> [] /\
    exec seed_sample_products st1 = (Returned already_seeded, st1).
Proof.
  split; [reflexivity|].
  destruct (seed_is_idempotent empty_store eq_refl) as (body & st1 & H1 & H2 & _ & H3).
  exists body, st1. auto.
Defined.

(** The seed on [failing_store], whose second insertion fails. *)
Lemma failed_seed_is_not_repaired_witness :
  documents failing_store "product" = [] /\
  exists st',
    exec seed_sample_products failing_store =
      (Raised (HTTPException 500 "connection reset"), st') /\
    documents st' "product" = [stored 0 servo_mount] /\
    exec seed_sample_products st' = (Returned already_seeded, st').
Proof.
  split; [reflexivity|].
  destruct (failed_seed_is_not_repaired failing_store 1 "connection reset")
    as (st' & H1 & H2 & _ & H3); [reflexivity|lia|reflexivity|].
  exists st'. auto.
Defined.



(** ** Orders and their models *)

Lemma validate_dumped_item loc (it : OrderItem) :
  validate_OrderItem loc (VDict (model_dump_OrderItem it)) = inl it.
Proof.
  destruct it as [pid t pr qty].
  unfold validate_OrderItem, model_dump_OrderItem, str_field, float_field, int_field, required.
  cbn [as_dict vbind product_id title price quantity].
  repeat (rewrite ?lookup_insert_eq, ?lookup_insert_ne by discriminate;
          cbn [vbind as_str as_float as_int]).
  reflexivity.
Qed.

Lemma each_dumped_items loc i (its : list OrderItem) :
  each validate_OrderItem loc i ((fun it => VDict (model_dump_OrderItem it)) <$> its) = inl its.
Proof.
  revert i. induction its as [|it its IH]; intros i; cbn [fmap list_fmap each]; [reflexivity|].
  rewrite validate_dumped_item. cbn [vbind]. rewrite IH. reflexivity.
Qed.

Lemma optional_dumped loc (d : dict) field (o : option string) :
  d !! field = Some (dump_optional_str o) -> optional_str_field loc d field = inl o.
Proof. unfold optional_str_field. intros ->. destruct o; reflexivity. Qed.

Lemma validate_dumped_customer loc (c : CustomerInfo) :
  validate_CustomerInfo loc (VDict (model_dump_CustomerInfo c)) = inl c.
Proof.
  destruct c as [fn em ph a1 a2 ci stt pc co].
  unfold validate_CustomerInfo, model_dump_CustomerInfo, str_field, required.
  cbn [as_dict vbind full_name email phone address_line1 address_line2 city state
       postal_code country].
  rewrite (optional_dumped _ _ "address_line2" a2) by by simplify_map_eq.
  repeat (rewrite ?lookup_insert_eq, ?lookup_insert_ne by discriminate;
          cbn [vbind as_str]).
  reflexivity.
Qed.

Lemma validate_dumped_payload loc (payload : OrderPayload) (extra : dict) :
  (forall key, key <> "payment_method" -> key <> "status" ->
     extra !! key = model_dump payload !! key) ->
  validate_OrderPayload loc (VDict extra) = inl payload.
Proof.
  intros Hextra. destruct payload as [its cust nts sub ship tot].
  unfold validate_OrderPayload, float_field, required.
  cbn [as_dict vbind].
  assert (Hn : optional_str_field loc extra "notes" = inl nts).
  { apply optional_dumped. rewrite Hextra by discriminate. unfold model_dump.
    cbn [notes]. by simplify_map_eq. }
  rewrite Hn.
  rewrite !Hextra by discriminate. unfold model_dump.
  cbn [items customer notes subtotal shipping total].
  repeat (rewrite ?lookup_insert_eq, ?lookup_insert_ne by discriminate;
          cbn [vbind as_list as_float]).
  rewrite each_dumped_items. cbn [vbind].
  rewrite validate_dumped_customer. cbn [vbind]. reflexivity.
Qed.

(** X13.  Dumping an order payload loses nothing: validated against
    [OrderPayload], the dumped payload, and also the stamped document
    [create_order] stores, gives the payload back, so two payloads with the
    same dump are the same payload. *)
Theorem model_dump_round_trip (loc : list string) (payload : OrderPayload) :
  validate_OrderPayload loc (VDict (model_dump payload)) = inl payload /\
  validate_OrderPayload loc (VDict (order_document payload)) = inl payload /\
  forall other, model_dump other = model_dump payload -> other = payload.
Proof.
  assert (H : forall p, validate_OrderPayload loc (VDict (model_dump p)) = inl p)
    by (intros p; apply validate_dumped_payload; reflexivity).
  repeat apply conj.
  - apply H.
  - apply validate_dumped_payload. intros key Hk1 Hk2. unfold order_document.
    now rewrite !lookup_insert_ne by congruence.
  - intros other Heq. pose proof (H other) as H2. rewrite Heq, H in H2. now injection H2.
Qed.

(** X14.  The order models of [schemas.py] accept what the models of the same
    name in [main.py] accept, and nothing else, under one more condition
    each.  [OrderItem] asks that the quantity be 1 at least and gives the
    same item.  [CustomerInfo] asks that the e-mail validation accept the
    address and gives the same customer with the address normalised. *)
Theorem schemas_models_refine_main (validate_email : string -> string + string)
    (loc : list string) (v : value) :
  (forall it, Schemas.validate_OrderItem loc v = inl it <->
              validate_OrderItem loc v = inl it /\ 1 <= quantity it) /\
  (forall c, Schemas.validate_CustomerInfo validate_email loc v = inl c <->
             exists c0 normalized,
               validate_CustomerInfo loc v = inl c0 /\
               validate_email (email c0) = inl normalized /\
               c = with_email c0 normalized).
Proof.
  split.
  - intros it. unfold Schemas.validate_OrderItem, validate_OrderItem.
    step_validation; try (split; [discriminate|intros [H _]; discriminate H]).
    destruct (Z.leb_spec 1 z) as [Hle|Hlt].
    + split; [intros [= <-]; auto|intros [[= <-] _]; reflexivity].
    + split; [discriminate|]. intros [[= <-] Hq]. cbn in Hq. lia.
  - intros c. unfold Schemas.validate_CustomerInfo, validate_CustomerInfo.
    step_validation;
      try (split; [discriminate|intros (c0 & n & H & _); discriminate H]).
    all: destruct (validate_email _) as [normalized|reason] eqn:He; step_validation.
    all: try (split; [discriminate|intros (c0 & n & H & _); discriminate H]).
    + split.
      * intros [= <-]. eexists _, normalized. split; [reflexivity|].
        split; [exact He|reflexivity].
      * intros (c0 & n & [= <-] & Hn & ->). cbn [email] in Hn.
        rewrite He in Hn. injection Hn as <-. reflexivity.
    + split; [discriminate|]. intros (c0 & n & [= <-] & Hn & _). cbn [email] in Hn.
      rewrite He in Hn. discriminate Hn.
Qed.

Lemma schemas_dumped_item loc (it : OrderItem) :
  Schemas.validate_OrderItem loc (VDict (model_dump_OrderItem it)) =
  if 1 <=? quantity it then inl it
  else inr (under loc "quantity", "Input should be greater than or equal to 1").
Proof.
  destruct it as [pid t pr qty].
  unfold Schemas.validate_OrderItem, model_dump_OrderItem, str_field, float_field,
    int_field, required.
  cbn [as_dict vbind product_id title price quantity].
  repeat (rewrite ?lookup_insert_eq, ?lookup_insert_ne by discriminate;
          cbn [vbind as_str as_float as_int]).
  reflexivity.
Qed.

Lemma schemas_dumped_customer validate_email loc (c : CustomerInfo) :
  Schemas.validate_CustomerInfo validate_email loc (VDict (model_dump_CustomerInfo c)) =
  match validate_email (email c) with
  | inl normalized => inl (with_email c normalized)
  | inr reason =>
      inr (under loc "email", "value is not a valid email address: " ++ reason)
  end.
Proof.
  destruct c as [fn em ph a1 a2 ci stt pc co].
  unfold Schemas.validate_CustomerInfo, model_dump_CustomerInfo, str_field, required,
    with_email.
  cbn [as_dict vbind full_name email phone address_line1 address_line2 city state
       postal_code country].
  rewrite (optional_dumped _ _ "address_line2" a2) by by simplify_map_eq.
  repeat (rewrite ?lookup_insert_eq, ?lookup_insert_ne by discriminate;
          cbn [vbind as_str]).
  destruct (validate_email em); [|reflexivity].
  repeat (rewrite ?lookup_insert_eq, ?lookup_insert_ne by discriminate;
          cbn [vbind as_str]).
  reflexivity.
Qed.

Lemma schemas_each_dumped loc i (its : list OrderItem) :
  match each Schemas.validate_OrderItem loc i
          ((fun it => VDict (model_dump_OrderItem it)) <$> its) with
  | inl accepted => quantities_ok its = true /\ accepted = its
  | inr _ => quantities_ok its = false
  end.
Proof.
  revert i. induction its as [|it its IH]; intros i;
    cbn [fmap list_fmap each quantities_ok forallb]; [auto|].
  rewrite schemas_dumped_item. destruct (1 <=? quantity it); cbn [vbind andb]; [|reflexivity].
  specialize (IH (S i)). fold (quantities_ok its).
  destruct (each _ _ _ _) as [accepted|err]; cbn [vbind]; [|exact IH].
  destruct IH as [-> ->]. auto.
Qed.

(** X15.  The document [create_order] stores fits the model [Order] of
    [schemas.py] exactly when every item is in quantity 1 at least and the
    e-mail validation accepts the address of the customer; [Order] then reads
    it as the order with the payload's fields, the address normalised, the
    payment method [cod] and the status [received], and as no other order. *)
Theorem stored_order_fits_schema (validate_email : string -> string + string)
    (loc : list string) (payload : OrderPayload) :
  let accepted normalized :=
    {| Schemas.items := items payload;
       Schemas.customer := with_email (customer payload) normalized;
       Schemas.notes := notes payload; Schemas.subtotal := subtotal payload;
       Schemas.shipping := shipping payload; Schemas.total := total payload;
       Schemas.payment_method := "cod"; Schemas.status := "received" |} in
  (forall normalized,
     Schemas.validate_Order validate_email loc (VDict (order_document payload)) =
       inl (accepted normalized) <->
     Forall (fun it => 1 <= quantity it) (items payload) /\
     validate_email (email (customer payload)) = inl normalized) /\
  (forall o,
     Schemas.validate_Order validate_email loc (VDict (order_document payload)) = inl o ->
     exists normalized,
       validate_email (email (customer payload)) = inl normalized /\
       o = accepted normalized).
Proof.
  intros accepted.
  assert (Hq : quantities_ok (items payload) = true <->
               Forall (fun it => 1 <= quantity it) (items payload)).
  { unfold quantities_ok. rewrite forallb_forall, Forall_forall.
    split; intros H it Hin.
    - apply Z.leb_le, H, list_elem_of_In, Hin.
    - apply Z.leb_le, H, list_elem_of_In, Hin. }
  assert (Hrun : Schemas.validate_Order validate_email loc
                   (VDict (order_document payload)) =
            match each Schemas.validate_OrderItem (under loc "items") 0
                    ((fun it => VDict (model_dump_OrderItem it)) <$> items payload) with
            | inl its =>
                match validate_email (email (customer payload)) with
                | inl normalized =>
                    inl {| Schemas.items := its;
                           Schemas.customer := with_email (customer payload) normalized;
                           Schemas.notes := notes payload;
                           Schemas.subtotal := subtotal payload;
                           Schemas.shipping := shipping payload;
                           Schemas.total := total payload;
                           Schemas.payment_method := "cod";
                           Schemas.status := "received" |}
                | inr reason =>
                    inr (under (under loc "customer") "email",
                         "value is not a valid email address: " ++ reason)
                end
            | inr err => inr err
            end).
  { destruct payload as [its cust nts sub ship tot].
    unfold Schemas.validate_Order, float_field, literal_field, required, order_document,
      model_dump.
    cbn [as_dict vbind items customer notes subtotal shipping total].
    rewrite (optional_dumped _ _ "notes" nts) by by simplify_map_eq.
    repeat (rewrite ?lookup_insert_eq, ?lookup_insert_ne by discriminate;
            cbn [vbind as_list as_float]).
    destruct (each _ _ _ _) as [accepted_items|err]; cbn [vbind]; [|reflexivity].
    rewrite schemas_dumped_customer.
    destruct (validate_email (email cust)); cbn [vbind]; reflexivity. }
  pose proof (schemas_each_dumped (under loc "items") 0 (items payload)) as Heach.
  rewrite Hrun. destruct (each _ _ _ _) as [its|err].
  - destruct Heach as [Hok ->].
    destruct (validate_email (email (customer payload))) as [n|reason].
    + split.
      * intros normalized. split.
        -- intros [= Hn]. split; [now apply Hq|]. now rewrite Hn.
        -- intros [_ [= ->]]. reflexivity.
      * intros o [= <-]. exists n. split; reflexivity.
    + split; [|discriminate]. intros normalized.
      split; [discriminate|intros [_ H]; discriminate H].
  - split; [|discriminate]. intros normalized. split; [discriminate|].
    intros [H _]. apply Hq in H. congruence.
Qed.

(** ** Created orders *)

(** C2.  A request body that [OrderPayload] accepts with at least one item
    makes [create_order] call [create_document] once, on the collection
    [order], with the dumped payload in which [payment_method] is ["cod"] and
    [status] is ["received"], whatever the body held under these two names,
    every other field being as dumped.  When the call returns the new
    identifier, the response holds it under [order_id] next to the status
    ["received"]; when it raises, the request fails with status 500.  So on a
    store that answers the order is created, and every run that returns a
    response has stored that document and returns its identifier. *)
Theorem created_order_is_stamped (body : value) (payload : OrderPayload) :
  validate_OrderPayload ["body"] body = inl payload ->
  items payload <> [] ->
  exists k,
    post_orders body = CreateDocument "order" (order_document payload) k /\
    order_document payload !! "payment_method" = Some (VStr "cod") /\
    order_document payload !! "status" = Some (VStr "received") /\
    (forall key, key <> "payment_method" -> key <> "status" ->
       order_document payload !! key = model_dump payload !! key) /\
    (forall order_id,
       k (Returned order_id) =
         Ret (<["order_id" := VStr order_id]> {[ "status" := VStr "received" ]})) /\
    (forall e, k (Raised e) = Raise (HTTPException 500 (str_exn e))) /\
    (forall st, healthy st ->
       exec (post_orders body) st =
         (Returned (<["order_id" := VStr (oid_hex (next_id st))]>
                      {[ "status" := VStr "received" ]}),
          after_insert "order" (order_document payload) st)) /\
    (forall st response st',
       exec (post_orders body) st = (Returned response, st') ->
       response = <["order_id" := VStr (oid_hex (next_id st))]>
                    {[ "status" := VStr "received" ]} /\
       documents st' "order" =
         (documents st "order" ++ [stored (next_id st) (order_document payload)])%list).
Proof.
  intros Hv Hitems. unfold post_orders. rewrite Hv. unfold create_order.
  destruct (items payload) as [|it its]; [congruence|].
  fold (order_document payload).
  eexists. split; [reflexivity|]. repeat apply conj.
  - unfold order_document. rewrite lookup_insert_ne by discriminate.
    apply lookup_insert_eq.
  - apply lookup_insert_eq.
  - intros key H1 H2. unfold order_document.
    rewrite !lookup_insert_ne by congruence. reflexivity.
  - reflexivity.
  - reflexivity.
  - intros st Hst. run_handler. cbn [exec]. unfold store_insert.
    rewrite (next_fault_healthy st Hst). reflexivity.
  - intros st response st'. run_handler. cbn [exec]. unfold store_insert, next_fault.
    destruct (faults st) as [|[msg|] rest] eqn:Hf; cbn [exec try_except bind resume].
    + intros [= <- <-]. split; [reflexivity|apply documents_after_insert].
    + discriminate.
    + intros [= <- <-]. split; [reflexivity|].
      rewrite documents_after_insert, documents_with_faults. reflexivity.
Qed.

(** [card_order], which asks for payment by card and the status [shipped]. *)
Lemma created_order_is_stamped_witness :
  validate_OrderPayload ["body"] card_order = inl card_payload /\
  items card_payload <> [] /\
  card_order = VDict (<["payment_method" := VStr "card"]>
                     (<["status" := VStr "shipped"]>
                     (order_json [item_json 2] "ada@example.org"))) /\
  exists k,
    post_orders card_order = CreateDocument "order" (order_document card_payload) k /\
    order_document card_payload !! "payment_method" = Some (VStr "cod") /\
    order_document card_payload !! "status" = Some (VStr "received") /\
    exec (post_orders card_order) empty_store =
      (Returned (<["order_id" := VStr (oid_hex 0)]> {[ "status" := VStr "received" ]}),
       after_insert "order" (order_document card_payload) empty_store).
Proof.
  assert (Hv : validate_OrderPayload ["body"] card_order = inl card_payload)
    by (vm_compute; reflexivity).
  assert (Hitems : items card_payload <> []) by discriminate.
  split; [exact Hv|]. split; [exact Hitems|]. split; [reflexivity|].
  destruct (created_order_is_stamped card_order card_payload Hv Hitems)
    as (k & Hpost & Hpm & Hst & _ & _ & _ & Hrun & _).
  exists k. split; [exact Hpost|]. split; [exact Hpm|]. split; [exact Hst|].
  apply (Hrun empty_store). reflexivity.
Defined.

(** Only a body that [OrderPayload] accepts with at least one item is ever
    answered with a response. *)
Lemma only_validated_orders_are_created (body : value) (st st' : Store)
    (response : dict) :
  exec (post_orders body) st = (Returned response, st') ->
  exists payload,
    validate_OrderPayload ["body"] body = inl payload /\ items payload <> [].
Proof.
  unfold post_orders.
  destruct (validate_OrderPayload ["body"] body) as [payload|[loc msg]];
    [|discriminate].
  intros H. exists payload. split; [reflexivity|].
  intros Hempty. unfold create_order in H. rewrite Hempty in H. discriminate H.
Qed.
